(** * CarService: the service workflow engine of [app/models.py]

    A shallow embedding of the [Service] model (status constants, the
    transition table, the guards and the workflow methods), of the
    [ServiceHistory] rows it appends, and of the vehicle form validators
    of [app/forms.py], followed by the properties the specification
    states about them.

    Conventions.
    - A Python method [def m(self, a, b)] that reads or mutates [self]
      is a computation [m a b : M A] in a state-and-exception monad over
      the [Service] object: it is run on the object as it is before the
      call and yields the object as it is afterwards, together with
      either the returned value or the raised exception.  An exception
      raised after an assignment to [self] leaves that assignment in
      place, as in Python.
    - [logger.*] calls have no effect on the model and are left out.
    - [db.session.commit()] is the persistence boundary; the object is
      the same before and after it.  The columns [created_at] and
      [updated_at] are stamped by the database layer and no method
      reads or writes them, so they are not part of the record. *)

From stdpp Require Import base strings list gmap.
From Stdlib Require Import ZArith.
From Stdlib Require Import Floats.PrimFloat.

Local Open Scope Z_scope.

(** ** Python values *)

(** Truth value testing ([bool(x)], [if x:], [not x]). *)
Class Truthy (A : Type) := truthy : A → bool.
Global Hint Mode Truthy ! : typeclass_instances.

Global Instance str_truthy : Truthy string :=
  λ s, match s with EmptyString => false | String _ _ => true end.
Global Instance int_truthy : Truthy Z :=
  λ n, negb (n =? 0).
Global Instance optional_truthy `{Truthy A} : Truthy (option A) :=
  λ o, match o with None => false | Some x => truthy x end.

(** [x in l] for a list [l]. *)
Definition py_in `{EqDecision A} (x : A) (l : list A) : bool :=
  bool_decide (x ∈ l).

(** [d.get(k, default)] for a dict [d]. *)
Definition dict_get `{Countable K} {V} (d : gmap K V) (k : K) (dflt : V) : V :=
  default dflt (d !! k).

(** The exceptions the modelled code raises. *)
Inductive exn : Type :=
  | ValueError (msg : string)
  | AttributeError (msg : string)
  | ValidationError (msg : string)
  | StopValidation (msg : string).

Global Instance exn_eq_dec : EqDecision exn.
Proof. solve_decision. Defined.

(** How a call ends. *)
Inductive outcome (A : Type) : Type :=
  | Returned (a : A)
  | Raised (e : exn).
Arguments Returned {A} a.
Arguments Raised {A} e.

Global Instance outcome_eq_dec `{EqDecision A} : EqDecision (outcome A).
Proof. solve_decision. Defined.

(** [datetime.datetime]: the fields of a naive timestamp. *)
Record datetime : Type := mk_datetime {
  year : Z; month : Z; day : Z;
  hour : Z; minute : Z; second : Z; microsecond : Z
}.

(** ** [class User] (the attributes the workflow engine consumes) *)
Module User.

Record t : Type := mk {
    id : Z;
    username : string;
    email : string;
    role : string;
    first_name : option string;
    last_name : option string
  }.

(** [User.get_full_name] *)
Definition get_full_name (self : t) : string :=
    match first_name self, last_name self with
    | Some f, Some l =>
        if truthy f && truthy l then f +:+ " " +:+ l else username self
    | _, _ => username self
    end.

(** [User.is_admin], [User.is_employee], [User.is_client] *)
Definition is_admin (self : t) : bool := String.eqb (role self) "admin".
Definition is_employee (self : t) : bool := String.eqb (role self) "employee".
Definition is_client (self : t) : bool := String.eqb (role self) "client".

(** [User.can_manage_users] *)
Definition can_manage_users (self : t) : bool :=
  is_admin self || is_employee self.

(** [User.can_manage_vehicles] *)
Definition can_manage_vehicles (self : t) : bool :=
  is_admin self || is_employee self.

(** [User.can_modify_user] *)
Definition can_modify_user (self target_user : t) : bool :=
  let can_modify :=
    is_admin self || (is_employee self && is_client target_user) in
  can_modify.

(** [User.can_delete_user] *)
Definition can_delete_user (self target_user : t) : bool :=
  let can_delete := is_admin self in
  can_delete.

(** [User.can_change_role] *)
Definition can_change_role (self : t) : bool := is_admin self.

(** [User.query.filter_by(<column>=value).first()] over the rows of the
    [users] table, in the order the database returns them. *)
Definition filter_by_first (column : t → string) (value : string)
    (rows : list t) : option t :=
  head (filter (λ u, column u = value) rows).

End User.

(** ** [class ServiceHistory] *)
Module ServiceHistory.

(** The attributes the constructor call in [add_history_entry] sets;
      the primary key and [created_at] are filled in by the database
      when the row is flushed. *)
Record t : Type := mk {
    service_id : Z;
    user_id : Z;
    description : string
  }.

Global Instance eq_dec : EqDecision t.
Proof. solve_decision. Defined.

End ServiceHistory.


(** ** [class Service] *)
Module Service.

(** *** Status constants *)
Definition STATUS_PENDING : string := "pending".
Definition STATUS_ACCEPTED : string := "accepted".
Definition STATUS_SCHEDULED : string := "scheduled".
Definition STATUS_CLIENT_CONFIRMED : string := "client_confirmed".
Definition STATUS_WAITING_FOR_VEHICLE : string := "waiting_for_vehicle".
Definition STATUS_VEHICLE_RECEIVED : string := "vehicle_received".
Definition STATUS_DIAGNOSIS_PENDING : string := "diagnosis_pending".
Definition STATUS_DIAGNOSIS_COMPLETED : string := "diagnosis_completed".
Definition STATUS_CLIENT_CONSULTATION : string := "client_consultation".
Definition STATUS_CLIENT_APPROVED : string := "client_approved".
Definition STATUS_WAITING_FOR_PARTS : string := "waiting_for_parts".
Definition STATUS_IN_PROGRESS : string := "in_progress".
Definition STATUS_COMPLETED : string := "completed".
Definition STATUS_READY_FOR_PAYMENT : string := "ready_for_payment".
Definition STATUS_PAYMENT_RECEIVED : string := "payment_received".
Definition STATUS_READY_FOR_PICKUP : string := "ready_for_pickup".
Definition STATUS_FINISHED : string := "finished".
Definition STATUS_CANCELLED : string := "cancelled".

(** *** Valid status transitions *)
Definition STATUS_TRANSITIONS : gmap string (list string) :=
  list_to_map [
    (STATUS_PENDING, [STATUS_ACCEPTED; STATUS_CANCELLED]);
    (STATUS_ACCEPTED,
      [STATUS_SCHEDULED; STATUS_CANCELLED; STATUS_WAITING_FOR_VEHICLE]);
    (STATUS_SCHEDULED,
      [STATUS_CLIENT_CONFIRMED; STATUS_PENDING; STATUS_CANCELLED]);
    (STATUS_CLIENT_CONFIRMED, [STATUS_WAITING_FOR_VEHICLE; STATUS_CANCELLED]);
    (STATUS_WAITING_FOR_VEHICLE, [STATUS_VEHICLE_RECEIVED; STATUS_CANCELLED]);
    (STATUS_VEHICLE_RECEIVED, [STATUS_DIAGNOSIS_PENDING; STATUS_CANCELLED]);
    (STATUS_DIAGNOSIS_PENDING, [STATUS_DIAGNOSIS_COMPLETED; STATUS_CANCELLED]);
    (STATUS_DIAGNOSIS_COMPLETED,
      [STATUS_CLIENT_APPROVED; STATUS_CLIENT_CONSULTATION; STATUS_CANCELLED]);
    (STATUS_CLIENT_CONSULTATION,
      [STATUS_DIAGNOSIS_COMPLETED; STATUS_CANCELLED]);
    (STATUS_CLIENT_APPROVED,
      [STATUS_WAITING_FOR_PARTS; STATUS_IN_PROGRESS; STATUS_CANCELLED]);
    (STATUS_WAITING_FOR_PARTS, [STATUS_IN_PROGRESS; STATUS_CANCELLED]);
    (STATUS_IN_PROGRESS, [STATUS_COMPLETED; STATUS_CANCELLED]);
    (STATUS_COMPLETED, [STATUS_READY_FOR_PAYMENT; STATUS_CANCELLED]);
    (STATUS_READY_FOR_PAYMENT, [STATUS_PAYMENT_RECEIVED; STATUS_CANCELLED]);
    (STATUS_PAYMENT_RECEIVED,
      [STATUS_READY_FOR_PICKUP; STATUS_IN_PROGRESS; STATUS_CANCELLED]);
    (STATUS_READY_FOR_PICKUP, [STATUS_FINISHED; STATUS_CANCELLED]);
    (STATUS_FINISHED, []);
    (STATUS_CANCELLED, [])
  ].

(** Client can only cancel in these states *)
Definition CLIENT_CANCELLABLE_STATES : list string :=
  [STATUS_PENDING; STATUS_SCHEDULED; STATUS_CLIENT_CONFIRMED].

(** Client can request date change in these states *)
Definition CLIENT_DATE_CHANGE_STATES : list string :=
  [STATUS_SCHEDULED; STATUS_CLIENT_CONFIRMED].

(** Employee can propose date in these states *)
Definition EMPLOYEE_DATE_PROPOSAL_STATES : list string :=
  [STATUS_PENDING; STATUS_ACCEPTED].

(** States that require employee assignment *)
Definition EMPLOYEE_REQUIRED_STATES : list string :=
  [STATUS_ACCEPTED; STATUS_SCHEDULED; STATUS_CLIENT_CONFIRMED;
   STATUS_WAITING_FOR_VEHICLE; STATUS_VEHICLE_RECEIVED;
   STATUS_DIAGNOSIS_PENDING; STATUS_DIAGNOSIS_COMPLETED;
   STATUS_CLIENT_CONSULTATION; STATUS_CLIENT_APPROVED;
   STATUS_WAITING_FOR_PARTS; STATUS_IN_PROGRESS; STATUS_COMPLETED;
   STATUS_READY_FOR_PAYMENT; STATUS_PAYMENT_RECEIVED;
   STATUS_READY_FOR_PICKUP; STATUS_FINISHED].

(** States that can be updated *)
Definition UPDATABLE_STATES : list string :=
  [STATUS_ACCEPTED; STATUS_SCHEDULED; STATUS_CLIENT_CONFIRMED;
   STATUS_WAITING_FOR_VEHICLE; STATUS_VEHICLE_RECEIVED;
   STATUS_DIAGNOSIS_PENDING; STATUS_DIAGNOSIS_COMPLETED;
   STATUS_CLIENT_CONSULTATION; STATUS_CLIENT_APPROVED;
   STATUS_WAITING_FOR_PARTS; STATUS_IN_PROGRESS; STATUS_COMPLETED;
   STATUS_READY_FOR_PAYMENT; STATUS_PAYMENT_RECEIVED;
   STATUS_READY_FOR_PICKUP].

(** Status colors for UI *)
Definition STATUS_COLORS : gmap string string :=
  list_to_map [
    (STATUS_PENDING, "warning");
    (STATUS_ACCEPTED, "info");
    (STATUS_SCHEDULED, "info");
    (STATUS_CLIENT_CONFIRMED, "info");
    (STATUS_WAITING_FOR_VEHICLE, "warning");
    (STATUS_VEHICLE_RECEIVED, "info");
    (STATUS_DIAGNOSIS_PENDING, "warning");
    (STATUS_DIAGNOSIS_COMPLETED, "info");
    (STATUS_CLIENT_CONSULTATION, "warning");
    (STATUS_CLIENT_APPROVED, "info");
    (STATUS_WAITING_FOR_PARTS, "warning");
    (STATUS_IN_PROGRESS, "primary");
    (STATUS_COMPLETED, "success");
    (STATUS_READY_FOR_PAYMENT, "warning");
    (STATUS_PAYMENT_RECEIVED, "success");
    (STATUS_READY_FOR_PICKUP, "success");
    (STATUS_FINISHED, "success");
    (STATUS_CANCELLED, "danger")
  ].

(** Priority colors for UI *)
Definition PRIORITY_COLORS : gmap string string :=
  list_to_map [("low", "success"); ("normal", "info"); ("high", "danger")].

(** *** Columns and the [history] relationship *)
Record t : Type := mk {
  id : Z;
  vehicle_id : Z;
  client_id : Z;
  employee_id : option Z;
  description : string;
  priority : string;
  status : string;
  preferred_date : option datetime;
  scheduled_date : option datetime;
  diagnosis : option string;
  service_plan : option string;
  estimated_cost : option float;
  actual_cost : option float;
  parts_needed : option string;
  notes : option string;
  additional_notes : option string;
  history : list ServiceHistory.t
}.

(** Attribute assignment, [self.<column> = v]. *)
Definition set_status (v : string) (s : t) : t :=
  mk (id s) (vehicle_id s) (client_id s) (employee_id s) (description s)
     (priority s) v (preferred_date s) (scheduled_date s) (diagnosis s)
     (service_plan s) (estimated_cost s) (actual_cost s) (parts_needed s)
     (notes s) (additional_notes s) (history s).

Definition set_employee_id (v : option Z) (s : t) : t :=
  mk (id s) (vehicle_id s) (client_id s) v (description s)
     (priority s) (status s) (preferred_date s) (scheduled_date s)
     (diagnosis s) (service_plan s) (estimated_cost s) (actual_cost s)
     (parts_needed s) (notes s) (additional_notes s) (history s).

Definition set_preferred_date (v : option datetime) (s : t) : t :=
  mk (id s) (vehicle_id s) (client_id s) (employee_id s) (description s)
     (priority s) (status s) v (scheduled_date s) (diagnosis s)
     (service_plan s) (estimated_cost s) (actual_cost s) (parts_needed s)
     (notes s) (additional_notes s) (history s).

Definition set_scheduled_date (v : option datetime) (s : t) : t :=
  mk (id s) (vehicle_id s) (client_id s) (employee_id s) (description s)
     (priority s) (status s) (preferred_date s) v (diagnosis s)
     (service_plan s) (estimated_cost s) (actual_cost s) (parts_needed s)
     (notes s) (additional_notes s) (history s).

Definition set_estimated_cost (v : option float) (s : t) : t :=
  mk (id s) (vehicle_id s) (client_id s) (employee_id s) (description s)
     (priority s) (status s) (preferred_date s) (scheduled_date s)
     (diagnosis s) (service_plan s) v (actual_cost s) (parts_needed s)
     (notes s) (additional_notes s) (history s).

Definition set_actual_cost (v : option float) (s : t) : t :=
  mk (id s) (vehicle_id s) (client_id s) (employee_id s) (description s)
     (priority s) (status s) (preferred_date s) (scheduled_date s)
     (diagnosis s) (service_plan s) (estimated_cost s) v (parts_needed s)
     (notes s) (additional_notes s) (history s).

Definition set_history (v : list ServiceHistory.t) (s : t) : t :=
  mk (id s) (vehicle_id s) (client_id s) (employee_id s) (description s)
     (priority s) (status s) (preferred_date s) (scheduled_date s)
     (diagnosis s) (service_plan s) (estimated_cost s) (actual_cost s)
     (parts_needed s) (notes s) (additional_notes s) v.

Definition set_diagnosis (v : option string) (s : t) : t :=
  mk (id s) (vehicle_id s) (client_id s) (employee_id s) (description s)
     (priority s) (status s) (preferred_date s) (scheduled_date s) v
     (service_plan s) (estimated_cost s) (actual_cost s) (parts_needed s)
     (notes s) (additional_notes s) (history s).

Definition set_service_plan (v : option string) (s : t) : t :=
  mk (id s) (vehicle_id s) (client_id s) (employee_id s) (description s)
     (priority s) (status s) (preferred_date s) (scheduled_date s)
     (diagnosis s) v (estimated_cost s) (actual_cost s) (parts_needed s)
     (notes s) (additional_notes s) (history s).

Definition set_parts_needed (v : option string) (s : t) : t :=
  mk (id s) (vehicle_id s) (client_id s) (employee_id s) (description s)
     (priority s) (status s) (preferred_date s) (scheduled_date s)
     (diagnosis s) (service_plan s) (estimated_cost s) (actual_cost s) v
     (notes s) (additional_notes s) (history s).

Definition set_notes (v : option string) (s : t) : t :=
  mk (id s) (vehicle_id s) (client_id s) (employee_id s) (description s)
     (priority s) (status s) (preferred_date s) (scheduled_date s)
     (diagnosis s) (service_plan s) (estimated_cost s) (actual_cost s)
     (parts_needed s) v (additional_notes s) (history s).

(** *** The monad of methods on [self] *)
Definition M (A : Type) : Type := t → t * outcome A.

Definition ret {A} (a : A) : M A := λ s, (s, Returned a).

Definition bind {A B} (c : M A) (k : A → M B) : M B :=
  λ s, match c s with
       | (s', Returned a) => k a s'
       | (s', Raised e) => (s', Raised e)
       end.

Definition raise {A} (e : exn) : M A := λ s, (s, Raised e).

(** Reading [self]. *)
Definition get_self : M t := λ s, (s, Returned s).

(** [self.<column> = v], with [f] one of the setters above. *)
Definition assign (f : t → t) : M unit := λ s, (f s, Returned tt).

(** [try: c  except ValueError: h]; other exceptions propagate. *)
Definition try_except_ValueError {A} (c : M A) (h : M A) : M A :=
  λ s, match c s with
       | (s', Raised (ValueError _)) => h s'
       | r => r
       end.

Declare Scope py_scope.
Delimit Scope py_scope with py.
Notation "x <- c ;; k" := (bind c (λ x, k))
  (at level 100, c at next level, k at level 200, right associativity)
  : py_scope.
Notation "c ;; k" := (bind c (λ _, k))
  (at level 100, k at level 200, right associativity) : py_scope.
Local Open Scope py_scope.

(** [db.session.commit()] *)
Definition db_session_commit : M unit := ret tt.

(** *** Guards *)

(** [Service.can_transition_to] *)
Definition can_transition_to (new_status : string) : M bool :=
  self <- get_self ;;
  if negb (py_in new_status (dict_get STATUS_TRANSITIONS (status self) []))
  then ret false
  else if py_in new_status EMPLOYEE_REQUIRED_STATES
          && negb (truthy (employee_id self))
  then ret false
  else ret true.

(** [Service.can_client_cancel] *)
Definition can_client_cancel : M bool :=
  self <- get_self ;;
  let can_cancel := py_in (status self) CLIENT_CANCELLABLE_STATES in
  ret can_cancel.

(** [Service.can_client_request_date_change] *)
Definition can_client_request_date_change : M bool :=
  self <- get_self ;;
  let can_change := py_in (status self) CLIENT_DATE_CHANGE_STATES in
  ret can_change.

(** [Service.can_employee_propose_date] *)
Definition can_employee_propose_date : M bool :=
  self <- get_self ;;
  let can_propose := py_in (status self) EMPLOYEE_DATE_PROPOSAL_STATES in
  ret can_propose.

(** [Service.requires_employee] *)
Definition requires_employee : M bool :=
  self <- get_self ;;
  let requires := py_in (status self) EMPLOYEE_REQUIRED_STATES in
  ret requires.

(** [Service.can_be_updated] *)
Definition can_be_updated : M bool :=
  self <- get_self ;;
  let can_update := py_in (status self) UPDATABLE_STATES in
  ret can_update.

(** [Service.status_color] *)
Definition status_color : M string :=
  self <- get_self ;;
  ret (dict_get STATUS_COLORS (status self) "secondary").

(** [Service.priority_color] *)
Definition priority_color : M string :=
  self <- get_self ;;
  ret (dict_get PRIORITY_COLORS (priority self) "secondary").

(** What the guards test with [self.employee_id] / [not
    self.employee_id]: the column holds the key of a user.  [None] is
    falsy and so is the integer [0]; [0] is no user's primary key, and
    the forms of the application use it for "no employee selected". *)
Definition employee_assigned (self : t) : Prop :=
  ∃ e : Z, employee_id self = Some e ∧ e ≠ 0.

(** The two tests of [can_transition_to] as one boolean: the value the
    method returns ([can_transition_to_run] below). *)
Definition transition_allowed (new_status : string) (self : t) : bool :=
  py_in new_status (dict_get STATUS_TRANSITIONS (status self) [])
  && negb (py_in new_status EMPLOYEE_REQUIRED_STATES
           && negb (truthy (employee_id self))).

(** *** Workflow methods

    The collaborators the methods call into are taken as given:
    [users] is the [users] table behind [User.query.get] and the
    [employee] relationship, [strftime] is [datetime.strftime], and
    [float_of_string] is the builtin [float] applied to a [str]
    ([None] when it raises [ValueError]). *)
Section methods.

Variable users : gmap Z User.t.
Variable strftime : datetime → string → string.
Variable float_of_string : string → option float.

(** [User.query.get(user_id).get_full_name()]; [get] yields [None] for
    an unknown key, on which the attribute access raises. *)
Definition query_get_full_name (user_id : Z) : M string :=
  match users !! user_id with
  | Some u => ret (User.get_full_name u)
  | None =>
      raise (AttributeError
               "'NoneType' object has no attribute 'get_full_name'")
  end.

(** The [employee] relationship: the user row [employee_id] refers to. *)
Definition employee (self : t) : option User.t :=
  match employee_id self with
  | Some e => users !! e
  | None => None
  end.

(** [float(x)] *)
Definition py_float (x : string) : M float :=
  match float_of_string x with
  | Some v => ret v
  | None =>
      raise (ValueError ("could not convert string to float: " +:+ x))
  end.

(** [Service.add_history_entry] *)
Definition add_history_entry (description : string) (user_id : Z) : M unit :=
  self <- get_self ;;
  let history_entry := ServiceHistory.mk (id self) user_id description in
  assign (set_history (history self ++ [history_entry])).

(** [Service.assign_employee] *)
Definition assign_employee (employee_id user_id : Z) : M unit :=
  self <- get_self ;;
  (if String.eqb (status self) STATUS_PENDING then
     assign (set_status STATUS_ACCEPTED) ;;
     name <- query_get_full_name employee_id ;;
     add_history_entry ("Service assigned to " +:+ name) user_id
   else
     let old_employee :=
       match employee self with
       | Some u => User.get_full_name u
       | None => "None"
       end in
     new_employee <- query_get_full_name employee_id ;;
     add_history_entry
       ("Service reassigned from " +:+ old_employee +:+ " to "
          +:+ new_employee)
       user_id) ;;
  assign (set_employee_id (Some employee_id)) ;;
  db_session_commit.

(** [Service.validate_costs] *)
Definition validate_costs (estimated_cost actual_cost : option string)
  : M unit :=
  match estimated_cost with
  | Some x =>
      try_except_ValueError
        (if truthy x then
           v <- py_float x ;;
           assign (set_estimated_cost (Some v))
         else
           assign (set_estimated_cost None))
        (raise (ValueError "Estimated cost must be a valid number"))
  | None => ret tt
  end ;;
  match actual_cost with
  | Some x =>
      try_except_ValueError
        (if truthy x then
           v <- py_float x ;;
           assign (set_actual_cost (Some v))
         else
           assign (set_actual_cost None))
        (raise (ValueError "Actual cost must be a valid number"))
  | None => ret tt
  end.

(** [description += f": {info}"] under [if info:]. *)
Definition with_optional_info (description : string) (info : option string)
  : string :=
  match info with
  | Some i => if truthy i then description +:+ ": " +:+ i else description
  | None => description
  end.

(** [Service.update_status] *)
Definition update_status (new_status : string) (user_id : Z)
    (additional_info : option string) : M unit :=
  ok <- can_transition_to new_status ;;
  self <- get_self ;;
  if negb ok then
    if py_in new_status EMPLOYEE_REQUIRED_STATES
       && negb (truthy (employee_id self))
    then
      raise (ValueError
               "Cannot transition to this status without assigned employee")
    else
      raise (ValueError
               ("Invalid status transition from " +:+ status self +:+ " to "
                  +:+ new_status))
  else
    let old_status := status self in
    assign (set_status new_status) ;;
    let description :=
      with_optional_info
        ("Status changed from " +:+ old_status +:+ " to " +:+ new_status)
        additional_info in
    add_history_entry description user_id ;;
    db_session_commit.

(** [Service.request_date_change] *)
Definition request_date_change (new_date : datetime) (user_id : Z)
    (is_client_request : bool) : M unit :=
  self <- get_self ;;
  if is_client_request
     && negb (py_in (status self)
                [STATUS_PENDING; STATUS_ACCEPTED; STATUS_SCHEDULED])
  then
    raise (ValueError
             "Client can only request date changes for pending or scheduled services")
  else
    assign (set_preferred_date (Some new_date)) ;;
    (if is_client_request then
       assign (set_status STATUS_PENDING) ;;
       add_history_entry
         ("Client requested date change to " +:+ strftime new_date "%Y-%m-%d")
         user_id
     else
       assign (set_status STATUS_SCHEDULED) ;;
       assign (set_scheduled_date (Some new_date)) ;;
       add_history_entry
         ("Employee proposed new date: " +:+ strftime new_date "%Y-%m-%d")
         user_id) ;;
    db_session_commit.

(** [Service.confirm_date] *)
Definition confirm_date (user_id : Z) : M unit :=
  self <- get_self ;;
  if negb (String.eqb (status self) STATUS_SCHEDULED) then
    raise (ValueError "Can only confirm dates for scheduled services")
  else if negb (truthy (employee_id self)) then
    raise (ValueError "Cannot confirm date without assigned employee")
  else
    assign (set_status STATUS_CLIENT_CONFIRMED) ;;
    add_history_entry "Client confirmed the scheduled date" user_id ;;
    db_session_commit.

(** [Service.reject_date] *)
Definition reject_date (user_id : Z) (reason : option string) : M unit :=
  self <- get_self ;;
  if negb (String.eqb (status self) STATUS_SCHEDULED) then
    raise (ValueError "Can only reject dates for scheduled services")
  else
    assign (set_status STATUS_PENDING) ;;
    let description :=
      with_optional_info "Client rejected the scheduled date" reason in
    add_history_entry description user_id ;;
    db_session_commit.

(** [Service.cancel] *)
Definition cancel (user_id : Z) (reason : option string) : M unit :=
  ok <- can_transition_to STATUS_CANCELLED ;;
  if negb ok then
    raise (ValueError "Service cannot be cancelled in its current state")
  else
    assign (set_status STATUS_CANCELLED) ;;
    let description := with_optional_info "Service cancelled" reason in
    add_history_entry description user_id ;;
    db_session_commit.

(** *** The workflow operations as data, for reachability *)
Inductive op : Type :=
  | UpdateStatus (new_status : string) (user_id : Z)
      (additional_info : option string)
  | AssignEmployee (employee_id user_id : Z)
  | RequestDateChange (new_date : datetime) (user_id : Z)
      (is_client_request : bool)
  | ConfirmDate (user_id : Z)
  | RejectDate (user_id : Z) (reason : option string)
  | Cancel (user_id : Z) (reason : option string).

Definition run_op (o : op) : M unit :=
  match o with
  | UpdateStatus n u a => update_status n u a
  | AssignEmployee e u => assign_employee e u
  | RequestDateChange d u c => request_date_change d u c
  | ConfirmDate u => confirm_date u
  | RejectDate u r => reject_date u r
  | Cancel u r => cancel u r
  end.

(** A freshly created service request: [status='pending'], nobody
    assigned. *)
Definition fresh (s : t) : Prop :=
  status s = STATUS_PENDING ∧ employee_id s = None.

(** The services obtained from a fresh one by workflow operations that
    return normally. *)
Inductive reachable : t → Prop :=
  | reachable_fresh s : fresh s → reachable s
  | reachable_step s o s' :
      reachable s → run_op o s = (s', Returned tt) → reachable s'.

End methods.

(** The cost setters as the specification words them: an argument that
    is not passed leaves its field alone, the empty string clears it, a
    number is stored, anything else is refused.  [read_cost_input]
    classifies an argument and [stored_after] gives the field's value
    after an argument of that class, from its value before. *)
Inductive cost_input : Type :=
  | NotPassed
  | Cleared
  | Number (v : float)
  | NotANumber.

Definition read_cost_input (float_of_string : string → option float)
    (x : option string) : cost_input :=
  match x with
  | None => NotPassed
  | Some EmptyString => Cleared
  | Some text =>
      match float_of_string text with
      | Some v => Number v
      | None => NotANumber
      end
  end.

Definition stored_after (c : cost_input) (old : option float)
  : option float :=
  match c with
  | NotPassed | NotANumber => old
  | Cleared => None
  | Number v => Some v
  end.

(** A status the transition table has a row for. *)
Definition known_status (st : string) : Prop :=
  is_Some (STATUS_TRANSITIONS !! st).

(** The acting user an operation is called with. *)
Definition op_user (o : op) : Z :=
  match o with
  | UpdateStatus _ u _ | AssignEmployee _ u | RequestDateChange _ u _
  | ConfirmDate u | RejectDate u _ | Cancel u _ => u
  end.

(** The columns that describe the request and the work done, which no
    workflow operation writes. *)
Definition same_request (s s' : t) : Prop :=
  id s' = id s ∧ vehicle_id s' = vehicle_id s ∧ client_id s' = client_id s
  ∧ description s' = description s ∧ priority s' = priority s
  ∧ diagnosis s' = diagnosis s ∧ service_plan s' = service_plan s
  ∧ estimated_cost s' = estimated_cost s ∧ actual_cost s' = actual_cost s
  ∧ parts_needed s' = parts_needed s ∧ notes s' = notes s
  ∧ additional_notes s' = additional_notes s.

(** Calling [update_status] for each status of a list in turn, by the
    same user and without note. *)
Fixpoint update_status_each (path : list string) (user_id : Z) : M unit :=
  match path with
  | [] => ret tt
  | new_status :: rest =>
      update_status new_status user_id None ;;
      update_status_each rest user_id
  end.

(** A list of statuses that follows the edges of the transition table
    from [st] on. *)
Fixpoint follows_edges (st : string) (path : list string) : Prop :=
  match path with
  | [] => True
  | next :: rest =>
      next ∈ dict_get STATUS_TRANSITIONS st [] ∧ follows_edges next rest
  end.

(** The requirement [EMPLOYEE_REQUIRED_STATES] documents, as a
    property of a service: in a state that requires an employee,
    [employee_id] is not null. *)
Definition employee_requirement (s : t) : Prop :=
  status s ∈ EMPLOYEE_REQUIRED_STATES → is_Some (employee_id s).

(** A service row with the given status, employee and history, the
    other columns as a client's request form leaves them. *)
Definition sample (st : string) (emp : option Z)
    (h : list ServiceHistory.t) : t :=
  mk 1 1 2 emp "Oil change" "normal" st None None None None None None
     None None None h.

End Service.

(** ** [class Vehicle] *)
Module Vehicle.

Record t : Type := mk {
  id : Z;
  owner_id : Z;
  make : string;
  model : string;
  year : Z;
  vin : string;
  license_plate : string;
  color : option string;
  mileage : option Z
}.

(** [Vehicle.query.filter_by(<column>=value).first()] over the rows of
    the [vehicles] table, in the order the database returns them. *)
Definition filter_by_first (column : t → string) (value : string)
    (rows : list t) : option t :=
  head (filter (λ v, column v = value) rows).

(** [Vehicle.query.get(pk)]: the row with that primary key. *)
Definition query_get (pk : Z) (rows : list t) : option t :=
  head (filter (λ v, id v = pk) rows).



End Vehicle.

(** ** The validators of [wtforms] the vehicle forms attach to [year] *)
Module validators.

(** [DataRequired]: the field data must be truthy; otherwise it raises
    [StopValidation], which ends the chain. *)
Definition DataRequired (data : option Z) : outcome unit :=
  if truthy data then Returned tt
  else Raised (StopValidation "This field is required.").

(** [NumberRange(min, max, message)]: the data must be a number within
    the bounds. *)
Definition NumberRange (min max : Z) (message : string) (data : option Z)
  : outcome unit :=
  match data with
  | Some n =>
      if (min <=? n) && (n <=? max) then Returned tt
      else Raised (ValidationError message)
  | None => Raised (ValidationError message)
  end.

(** [Field._run_validation_chain]: the validators run in order and the
    messages of their [ValidationError]s are collected;
    [StopValidation] ends the chain with its message; any other
    exception propagates. *)
Fixpoint run_validation_chain (chain : list (option Z → outcome unit))
    (data : option Z) : outcome (list string) :=
  match chain with
  | [] => Returned []
  | validator :: rest =>
      match validator data with
      | Returned _ => run_validation_chain rest data
      | Raised (StopValidation msg) => Returned [msg]
      | Raised (ValidationError msg) =>
          match run_validation_chain rest data with
          | Returned errors => Returned (msg :: errors)
          | Raised e => Raised e
          end
      | Raised e => Raised e
      end
  end.

(** A field is accepted when its chain ran through and collected no
    error. *)
Definition accepted (chain : list (option Z → outcome unit))
    (data : option Z) : bool :=
  bool_decide (run_validation_chain chain data = Returned []).

End validators.

(** ** [class VehicleForm] and [class ClientVehicleForm]

    [now_year] is [datetime.now().year] as evaluated when the class
    body runs; [vehicle] is the [obj] the form was built with (the
    vehicle being edited, [None] on creation); [rows] is the [vehicles]
    table.  The rendering of the bound in the message is taken as
    given. *)
Module VehicleForm.

Section form.

Variable now_year : Z.
Variable show_year : Z → string.

(** The validators of the [year] field. *)
Definition year : list (option Z → outcome unit) :=
  [ validators.DataRequired;
    validators.NumberRange 1900 (now_year + 1)
      ("Year must be between 1900 and " +:+ show_year (now_year + 1) +:+ ".") ].

Variable rows : list Vehicle.t.
Variable vehicle : option Vehicle.t.

(** [VehicleForm.validate_vin] *)
Definition validate_vin (vin_data : string) : outcome unit :=
  let found := Vehicle.filter_by_first Vehicle.vin vin_data rows in
  match found with
  | Some v =>
      if match vehicle with
         | None => true
         | Some own => negb (Vehicle.id v =? Vehicle.id own)
         end
      then Raised (ValidationError "This VIN is already registered.")
      else Returned tt
  | None => Returned tt
  end.

(** [VehicleForm.validate_license_plate] *)
Definition validate_license_plate (license_plate_data : string)
  : outcome unit :=
  let found :=
    Vehicle.filter_by_first Vehicle.license_plate license_plate_data rows in
  match found with
  | Some v =>
      if match vehicle with
         | None => true
         | Some own => negb (Vehicle.id v =? Vehicle.id own)
         end
      then Raised (ValidationError "This license plate is already registered.")
      else Returned tt
  | None => Returned tt
  end.

End form.

End VehicleForm.

Module ClientVehicleForm.

Section form.

Variable now_year : Z.
Variable show_year : Z → string.

(** The validators of the [year] field. *)
Definition year : list (option Z → outcome unit) :=
  [ validators.DataRequired;
    validators.NumberRange 1900 (now_year + 1)
      ("Year must be between 1900 and " +:+ show_year (now_year + 1) +:+ ".") ].

Variable rows : list Vehicle.t.
Variable vehicle : option Vehicle.t.

(** [ClientVehicleForm.validate_vin] *)
Definition validate_vin (vin_data : string) : outcome unit :=
  let found := Vehicle.filter_by_first Vehicle.vin vin_data rows in
  match found with
  | Some v =>
      if match vehicle with
         | None => true
         | Some own => negb (Vehicle.id v =? Vehicle.id own)
         end
      then Raised (ValidationError "This VIN is already registered.")
      else Returned tt
  | None => Returned tt
  end.

(** [ClientVehicleForm.validate_license_plate] *)
Definition validate_license_plate (license_plate_data : string)
  : outcome unit :=
  let found :=
    Vehicle.filter_by_first Vehicle.license_plate license_plate_data rows in
  match found with
  | Some v =>
      if match vehicle with
         | None => true
         | Some own => negb (Vehicle.id v =? Vehicle.id own)
         end
      then Raised (ValidationError "This license plate is already registered.")
      else Returned tt
  | None => Returned tt
  end.

End form.

End ClientVehicleForm.

(** ** The other forms of [app/forms.py] *)

(** [datetime] objects have no [__bool__] or [__len__]: all are truthy. *)
Global Instance datetime_truthy : Truthy datetime := λ _, true.

(** [a >= b] on naive [datetime]s: the fields compared in order. *)
Fixpoint lex_compare (l1 l2 : list Z) : comparison :=
  match l1, l2 with
  | [], [] => Eq
  | [], _ :: _ => Lt
  | _ :: _, [] => Gt
  | x :: r1, y :: r2 =>
      match x ?= y with
      | Eq => lex_compare r1 r2
      | c => c
      end
  end.

Definition datetime_fields (d : datetime) : list Z :=
  [year d; month d; day d; hour d; minute d; second d; microsecond d].

Definition datetime_ge (a b : datetime) : bool :=
  match lex_compare (datetime_fields a) (datetime_fields b) with
  | Lt => false
  | _ => true
  end.

(** [wtforms] for a field of any data type. *)
Module wtforms.

(** [DataRequired] *)
Definition DataRequired `{Truthy D} (data : option D) : outcome unit :=
  if truthy data then Returned tt
  else Raised (StopValidation "This field is required.").

(** A plain callable used as a validator: the chain calls it for its
    exceptions only, what it returns is dropped. *)
Definition callable {D R} (f : option D → outcome R)
  : option D → outcome unit :=
  λ data, match f data with
          | Returned _ => Returned tt
          | Raised e => Raised e
          end.

(** [Field._run_validation_chain] *)
Fixpoint run_validation_chain {D} (chain : list (option D → outcome unit))
    (data : option D) : outcome (list string) :=
  match chain with
  | [] => Returned []
  | validator :: rest =>
      match validator data with
      | Returned _ => run_validation_chain rest data
      | Raised (StopValidation msg) => Returned [msg]
      | Raised (ValidationError msg) =>
          match run_validation_chain rest data with
          | Returned errors => Returned (msg :: errors)
          | Raised e => Raised e
          end
      | Raised e => Raised e
      end
  end.

Definition accepted {D} (chain : list (option D → outcome unit))
    (data : option D) : bool :=
  bool_decide (run_validation_chain chain data = Returned []).

End wtforms.

(** [class RegistrationForm]; [rows] is the [users] table. *)
Module RegistrationForm.

Section form.

Variable rows : list User.t.

(** [RegistrationForm.validate_username] *)
Definition validate_username (username_data : string) : outcome unit :=
  let user := User.filter_by_first User.username username_data rows in
  match user with
  | Some _ => Raised (ValidationError "Please use a different username.")
  | None => Returned tt
  end.

(** [RegistrationForm.validate_email] *)
Definition validate_email (email_data : string) : outcome unit :=
  let user := User.filter_by_first User.email email_data rows in
  match user with
  | Some _ => Raised (ValidationError "Please use a different email address.")
  | None => Returned tt
  end.

End form.

End RegistrationForm.

(** [class UserProfileForm] *)
Module UserProfileForm.

Section form.

Variable rows : list User.t.
Variable original_email : string.

(** [UserProfileForm.validate_email] *)
Definition validate_email (email_data : string) : outcome unit :=
  if negb (String.eqb email_data original_email) then
    let user := User.filter_by_first User.email email_data rows in
    match user with
    | Some _ =>
        Raised (ValidationError "Please use a different email address.")
    | None => Returned tt
    end
  else Returned tt.

End form.

End UserProfileForm.

(** [class UserManagementForm]; the originals are [None] when the form
    adds a user. *)
Module UserManagementForm.

Section form.

Variable rows : list User.t.
Variable original_username : option string.
Variable original_email : option string.

(** [UserManagementForm.validate_username] *)
Definition validate_username (username_data : string) : outcome unit :=
  if negb (bool_decide (Some username_data = original_username)) then
    let user := User.filter_by_first User.username username_data rows in
    match user with
    | Some _ => Raised (ValidationError "Please use a different username.")
    | None => Returned tt
    end
  else Returned tt.

(** [UserManagementForm.validate_email] *)
Definition validate_email (email_data : string) : outcome unit :=
  if negb (bool_decide (Some email_data = original_email)) then
    let user := User.filter_by_first User.email email_data rows in
    match user with
    | Some _ =>
        Raised (ValidationError "Please use a different email address.")
    | None => Returned tt
    end
  else Returned tt.

End form.

End UserManagementForm.

(** [class EmployeeVehicleForm] *)
Module EmployeeVehicleForm.

Section form.

Variable now_year : Z.

(** The validators of the [year] field. *)
Definition year : list (option Z → outcome unit) :=
  [ validators.DataRequired;
    validators.NumberRange 1900 now_year
      "Year must be between 1900 and current year" ].

Variable rows : list Vehicle.t.
Variable vehicle : option Vehicle.t.

(** [EmployeeVehicleForm.validate_license_plate] *)
Definition validate_license_plate (license_plate_data : string)
  : outcome unit :=
  let found :=
    Vehicle.filter_by_first Vehicle.license_plate license_plate_data rows in
  match found with
  | Some v =>
      if match vehicle with
         | None => true
         | Some own => negb (Vehicle.id v =? Vehicle.id own)
         end
      then Raised (ValidationError "This license plate is already registered.")
      else Returned tt
  | None => Returned tt
  end.

(** [EmployeeVehicleForm.validate_vin] *)
Definition validate_vin (vin_data : string) : outcome unit :=
  let found := Vehicle.filter_by_first Vehicle.vin vin_data rows in
  match found with
  | Some v =>
      if match vehicle with
         | None => true
         | Some own => negb (Vehicle.id v =? Vehicle.id own)
         end
      then Raised (ValidationError "This VIN is already registered.")
      else Returned tt
  | None => Returned tt
  end.

End form.

End EmployeeVehicleForm.

(** [class ServiceManagementForm]; [users] and [vehicles] are the
    tables behind [User.query.get] and [Vehicle.query.get],
    [client_id_data] is [self.client_id.data]. *)
Module ServiceManagementForm.

Section form.

Variable users : gmap Z User.t.
Variable vehicles : list Vehicle.t.
Variable client_id_data : option Z.

(** [ServiceManagementForm.validate_vehicle_id] *)
Definition validate_vehicle_id (field_data : option Z) : outcome unit :=
  match field_data with
  | Some pk =>
      if negb (truthy pk) || (pk =? 0) then
        Raised (ValidationError "Please select a vehicle.")
      else
        match Vehicle.query_get pk vehicles with
        | None => Raised (ValidationError "Selected vehicle does not exist.")
        | Some vehicle =>
            if negb (bool_decide
                       (Some (Vehicle.owner_id vehicle) = client_id_data))
            then
              Raised
                (ValidationError
                   "Selected vehicle does not belong to the selected client.")
            else Returned tt
        end
  | None => Raised (ValidationError "Please select a vehicle.")
  end.

(** [ServiceManagementForm.validate_client_id] *)
Definition validate_client_id (field_data : option Z) : outcome unit :=
  match field_data with
  | Some pk =>
      if negb (truthy pk) || (pk =? 0) then
        Raised (ValidationError "Please select a client.")
      else
        match users !! pk with
        | None => Raised (ValidationError "Selected user is not a client.")
        | Some client =>
            if negb (String.eqb (User.role client) "client") then
              Raised (ValidationError "Selected user is not a client.")
            else Returned tt
        end
  | None => Raised (ValidationError "Please select a client.")
  end.

End form.

End ServiceManagementForm.

(** [class ServiceRequestForm]: the validators of [preferred_date];
    [now] is what [datetime.now()] returns when the lambda runs. *)
Module ServiceRequestForm.

Section form.

Variable now : datetime.

(** [lambda form, field: field.data >= datetime.now() if field.data
    else None] *)
Definition not_in_the_past (data : option datetime)
  : outcome (option bool) :=
  if truthy data then
    match data with
    | Some d => Returned (Some (datetime_ge d now))
    | None => Returned None
    end
  else Returned None.

Definition preferred_date : list (option datetime → outcome unit) :=
  [ wtforms.DataRequired; wtforms.callable not_in_the_past ].

End form.

End ServiceRequestForm.

(** ** Views and decorators ([app/utils/decorators.py], [app/routes])

    A view is modelled from the point where it has loaded its service
    ([Service.query.get_or_404(id)]) and runs on that service; it
    yields the messages it flashed, each with its category, and its
    response.  [current_user] is the logged-in user and [form] is
    [request.form]. *)
Module flask.

Inductive response : Type :=
  | redirect (endpoint : string)
  | render_template (template : string)
  | abort (code : Z).

Definition view : Type := list (string * string) * response.

End flask.

Module decorators.

Import Service.
Local Open Scope py_scope.

Section decorators.

Variable current_user : User.t.

Definition denied : flask.view :=
  ([("You do not have permission to access this page.", "danger")],
   flask.redirect "main.index").

(** [client_required] *)
Definition client_required {A} (f : A → M flask.view) : A → M flask.view :=
  λ args,
    if negb (User.is_client current_user) then ret denied else f args.

(** [employee_required] *)
Definition employee_required {A} (f : A → M flask.view) : A → M flask.view :=
  λ args,
    if negb (User.is_employee current_user) then ret denied else f args.

(** [admin_required] *)
Definition admin_required {A} (f : A → M flask.view) : A → M flask.view :=
  λ args,
    if negb (User.is_admin current_user) then ret denied else f args.

End decorators.

End decorators.

(** [app/routes/client.py] *)
Module client.

Import Service.
Local Open Scope py_scope.

Section views.

Variable current_user : User.t.
Variable form : gmap string string.

(** [confirm_service] *)
Definition confirm_service : M flask.view :=
  service <- get_self ;;
  if negb (client_id service =? User.id current_user) then
    ret ([("You do not have permission to confirm this service.", "danger")],
         flask.redirect "client.services")
  else if negb (String.eqb (status service) "scheduled") then
    ret ([("This service cannot be confirmed in its current state.",
           "warning")],
         flask.redirect "client.service_details")
  else
    assign (set_status "client_confirmed") ;;
    add_history_entry "Client confirmed the service" (User.id current_user) ;;
    db_session_commit ;;
    ret ([("Service has been confirmed.", "success")],
         flask.redirect "client.service_details").

(** [cancel_service] *)
Definition cancel_service : M flask.view :=
  service <- get_self ;;
  if negb (client_id service =? User.id current_user) then
    ret ([], flask.abort 403)
  else
    let cancellation_reason := form !! "cancellation_reason" in
    match cancellation_reason with
    | Some reason =>
        if truthy reason then
          assign (set_status "cancelled") ;;
          add_history_entry
            ("Service cancelled by client. Reason: " +:+ reason)
            (User.id current_user) ;;
          db_session_commit ;;
          ret ([("Service has been cancelled.", "success")],
               flask.redirect "client.services")
        else
          ret ([("Please provide a reason for cancellation.", "danger")],
               flask.redirect "client.service_details")
    | None =>
        ret ([("Please provide a reason for cancellation.", "danger")],
             flask.redirect "client.service_details")
    end.

(** [approve_service] *)
Definition approve_service : M flask.view :=
  service <- get_self ;;
  if negb (client_id service =? User.id current_user) then
    ret ([("You do not have permission to approve this service.", "danger")],
         flask.redirect "client.services")
  else if negb (String.eqb (status service) "diagnosis_completed") then
    ret ([("Service plan can only be approved after diagnosis is completed.",
           "warning")],
         flask.redirect "client.service_details")
  else
    assign (set_status "client_approved") ;;
    add_history_entry "Client approved the service plan"
      (User.id current_user) ;;
    db_session_commit ;;
    ret ([("Service plan has been approved.", "success")],
         flask.redirect "client.service_details").

(** [confirm_pickup] *)
Definition confirm_pickup : M flask.view :=
  service <- get_self ;;
  if negb (client_id service =? User.id current_user) then
    ret ([("You do not have permission to confirm pickup for this service.",
           "danger")],
         flask.redirect "client.services")
  else if negb (String.eqb (status service) "ready_for_pickup") then
    ret ([("Pickup can only be confirmed when service is ready for pickup.",
           "warning")],
         flask.redirect "client.service_details")
  else
    assign (set_status "finished") ;;
    add_history_entry "Client confirmed vehicle pickup"
      (User.id current_user) ;;
    db_session_commit ;;
    ret ([("Vehicle pickup has been confirmed.", "success")],
         flask.redirect "client.services").

End views.

(** The client views as data. *)
Inductive name : Type :=
  | ConfirmService | CancelService | ApproveService | ConfirmPickup.

Definition run (current_user : User.t) (form : gmap string string)
    (v : name) : M flask.view :=
  match v with
  | ConfirmService => confirm_service current_user
  | CancelService => cancel_service current_user form
  | ApproveService => approve_service current_user
  | ConfirmPickup => confirm_pickup current_user
  end.

End client.

(** [app/routes/employee.py] *)
Module employee.

Import Service.
Local Open Scope py_scope.

Section views.

Variable float_of_string : string → option float.
Variable current_user : User.t.
Variable method : string.
Variable form : gmap string string.

(** [try: c  except ValueError as e: h(str(e))] *)
Definition try_except_ValueError_as {A} (c : M A) (h : string → M A) : M A :=
  λ s, match c s with
       | (s', Raised (ValueError msg)) => h msg s'
       | r => r
       end.



(** [update_service_status] *)
Definition update_service_status : M flask.view :=
  service <- get_self ;;
  let new_status := form !! "new_status" in
  let status_note := form !! "status_note" in
  match new_status, status_note with
  | Some new_status, Some status_note =>
      if negb (truthy new_status) || negb (truthy status_note) then
        ret ([("Please provide both new status and status note.", "warning")],
             flask.redirect "employee.service_details")
      else
        let old_status := status service in
        assign (set_status new_status) ;;
        add_history_entry
          ("Status changed from " +:+ old_status +:+ " to " +:+ new_status
             +:+ ". Note: " +:+ status_note)
          (User.id current_user) ;;
        db_session_commit ;;
        ret ([("Service status has been updated.", "success")],
             flask.redirect "employee.service_details")
  | _, _ =>
      ret ([("Please provide both new status and status note.", "warning")],
           flask.redirect "employee.service_details")
  end.

(** [update_service].  A missing [status] field gives [None], which is
    in no list of statuses: [can_transition_to(None)] is [False]. *)
Definition update_service : M flask.view :=
  updatable <- can_be_updated ;;
  if negb updatable then
    ret ([("This service cannot be updated in its current state.",
           "warning")],
         flask.redirect "employee.services")
  else if String.eqb method "POST" then
    match form !! "status" with
    | None =>
        ret ([("Invalid status transition.", "danger")],
             flask.redirect "employee.update_service")
    | Some new_status =>
        ok <- can_transition_to new_status ;;
        if negb ok then
          ret ([("Invalid status transition.", "danger")],
               flask.redirect "employee.update_service")
        else
          returned <- try_except_ValueError_as
                        (validate_costs float_of_string
                           (form !! "estimated_cost") (form !! "actual_cost") ;;
                         ret None)
                        (λ msg,
                           ret (Some ([(msg, "danger")],
                                      flask.redirect
                                        "employee.update_service"))) ;;
          match returned with
          | Some response => ret response
          | None =>
              assign (set_diagnosis (form !! "diagnosis")) ;;
              assign (set_service_plan (form !! "service_plan")) ;;
              assign (set_parts_needed (form !! "parts_needed")) ;;
              assign (set_notes (form !! "notes")) ;;
              service <- get_self ;;
              (if negb (String.eqb new_status (status service)) then
                 update_status new_status (User.id current_user) None
               else ret tt) ;;
              db_session_commit ;;
              ret ([("Service updated successfully.", "success")],
                   flask.redirect "employee.services")
          end
    end
  else
    ret ([], flask.render_template "employee/update_service.html").

End views.

End employee.

(** ** Sample rows, to run the definitions on *)

Definition anna : User.t :=
  User.mk 5 "anowak" "anna@example.org" "employee" (Some "Anna")
    (Some "Nowak").

Definition sample_users : gmap Z User.t := {[ 5 := anna ]}.




Definition jan : User.t :=
  User.mk 2 "jkowalski" "jan@example.org" "client" (Some "Jan")
    (Some "Kowalski").

(** The statuses of an uneventful repair, after acceptance. *)
Definition uneventful_repair : list string :=
  ["scheduled"; "client_confirmed"; "waiting_for_vehicle";
   "vehicle_received"; "diagnosis_pending"; "diagnosis_completed";
   "client_approved"; "in_progress"; "completed"; "ready_for_payment";
   "payment_received"; "ready_for_pickup"; "finished"].

Definition sample_status_form : gmap string string :=
  <["new_status" := "reopened"]> {["status_note" := "customer called"]}.

(** * Properties *)

(** ** Python values *)

Lemma py_in_true `{EqDecision A} (x : A) (l : list A) :
  py_in x l = true ↔ x ∈ l.
Proof. unfold py_in. apply bool_decide_eq_true. Qed.

Lemma py_in_false `{EqDecision A} (x : A) (l : list A) :
  py_in x l = false ↔ x ∉ l.
Proof. unfold py_in. apply bool_decide_eq_false. Qed.

Lemma truthy_employee_id (s : Service.t) :
  truthy (Service.employee_id s) = true ↔ Service.employee_assigned s.
Proof.
  unfold Service.employee_assigned.
  destruct (Service.employee_id s) as [e|]; cbn.
  - unfold truthy, int_truthy. rewrite negb_true_iff, Z.eqb_neq.
    split; [eauto | intros (e' & [= <-] & ?); done].
  - split; [done | intros (e' & ? & ?); done].
Qed.

Lemma employee_assigned_is_Some (s : Service.t) :
  Service.employee_assigned s → is_Some (Service.employee_id s).
Proof. intros (e & -> & _). eauto. Qed.

(** ** The guards are queries *)

Lemma can_transition_to_run (s : Service.t) (t : string) :
  Service.can_transition_to t s =
    (s, Returned (Service.transition_allowed t s)).
Proof.
  unfold Service.can_transition_to, Service.transition_allowed,
    Service.bind, Service.get_self, Service.ret.
  destruct (py_in t (dict_get _ _ _)); cbn; [|done].
  destruct (py_in t Service.EMPLOYEE_REQUIRED_STATES && _); done.
Qed.

Lemma terminal_edges :
  dict_get Service.STATUS_TRANSITIONS Service.STATUS_FINISHED [] = []
  ∧ dict_get Service.STATUS_TRANSITIONS Service.STATUS_CANCELLED [] = [].
Proof. split; vm_compute; reflexivity. Qed.

Lemma transition_allowed_true (s : Service.t) (t : string) :
  Service.transition_allowed t s = true ↔
    t ∈ dict_get Service.STATUS_TRANSITIONS (Service.status s) []
    ∧ (t ∉ Service.EMPLOYEE_REQUIRED_STATES ∨ Service.employee_assigned s).
Proof.
  unfold Service.transition_allowed.
  rewrite andb_true_iff, negb_true_iff, andb_false_iff, negb_false_iff.
  rewrite py_in_true, py_in_false, truthy_employee_id. tauto.
Qed.

(** A missing employee for an employee-required target: the test
    [update_status] repeats to pick its message. *)
Lemma missing_employee_true (s : Service.t) (t : string) :
  py_in t Service.EMPLOYEE_REQUIRED_STATES
  && negb (truthy (Service.employee_id s)) = true ↔
    t ∈ Service.EMPLOYEE_REQUIRED_STATES ∧ ¬ Service.employee_assigned s.
Proof.
  rewrite andb_true_iff, negb_true_iff, py_in_true, <- not_true_iff_false,
    truthy_employee_id. tauto.
Qed.

Lemma missing_employee_not_allowed (s : Service.t) (t : string) :
  py_in t Service.EMPLOYEE_REQUIRED_STATES
  && negb (truthy (Service.employee_id s)) = true →
  Service.transition_allowed t s = false.
Proof.
  intros H. unfold Service.transition_allowed. rewrite H.
  apply andb_false_r.
Qed.

(** C1.  [can_transition_to(t)] returns without touching the service,
    and what it returns is true exactly when [t] is in the edge set the
    transition table gives for the current status and, besides, [t] is
    not an employee-required status or an employee is assigned.  The
    edge sets of 'finished' and 'cancelled' are empty, so the answer is
    false for every target there. *)
Theorem can_transition_to_spec (s : Service.t) (t : string) :
  ∃ b : bool,
    Service.can_transition_to t s = (s, Returned b)
    ∧ (b = true ↔
         t ∈ dict_get Service.STATUS_TRANSITIONS (Service.status s) []
         ∧ (t ∉ Service.EMPLOYEE_REQUIRED_STATES
            ∨ Service.employee_assigned s))
    ∧ dict_get Service.STATUS_TRANSITIONS Service.STATUS_FINISHED [] = []
    ∧ dict_get Service.STATUS_TRANSITIONS Service.STATUS_CANCELLED [] = []
    ∧ (Service.status s = Service.STATUS_FINISHED
       ∨ Service.status s = Service.STATUS_CANCELLED → b = false).
Proof.
  eexists. split; [apply can_transition_to_run|].
  destruct terminal_edges as [Hfin Hcan].
  split; [|split; [exact Hfin | split; [exact Hcan|]]].
  - apply transition_allowed_true.
  - unfold Service.transition_allowed.
    intros [-> | ->]; [rewrite Hfin | rewrite Hcan]; reflexivity.
Qed.

(** ** [update_status] *)

Lemma with_optional_info_absent (d : string) (a : option string) :
  a = None ∨ a = Some "" → Service.with_optional_info d a = d.
Proof. intros [-> | ->]; reflexivity. Qed.

Lemma with_optional_info_given (d i : string) :
  i ≠ "" → Service.with_optional_info d (Some i) = d +:+ ": " +:+ i.
Proof. destruct i; [done | reflexivity]. Qed.

(** The three ways a call of [update_status] ends. *)
Lemma update_status_run (s : Service.t) (n : string) (u : Z)
    (a : option string) :
  Service.update_status n u a s =
    if Service.transition_allowed n s then
      (Service.set_history
         (Service.history s ++
            [ServiceHistory.mk (Service.id s) u
               (Service.with_optional_info
                  ("Status changed from " +:+ Service.status s +:+ " to "
                     +:+ n) a)])
         (Service.set_status n s),
       Returned tt)
    else if py_in n Service.EMPLOYEE_REQUIRED_STATES
            && negb (truthy (Service.employee_id s))
    then
      (s, Raised
            (ValueError
               "Cannot transition to this status without assigned employee"))
    else
      (s, Raised
            (ValueError
               ("Invalid status transition from " +:+ Service.status s
                  +:+ " to " +:+ n))).
Proof.
  unfold Service.update_status, Service.bind.
  rewrite can_transition_to_run. cbn.
  destruct (Service.transition_allowed n s); cbn; [reflexivity|].
  destruct (py_in n Service.EMPLOYEE_REQUIRED_STATES && _); reflexivity.
Qed.

(** C2.  A call of [update_status] that returns leaves the service with
    [status == new_status] and with exactly one more history row, whose
    description is "Status changed from <old> to <new>", followed by
    ": <note>" when a (non-empty) note was passed; nothing else of the
    service changed.  A call that raises leaves the service, history
    included, as it was. *)
Theorem update_status_effect (s : Service.t) (n : string) (u : Z)
    (a : option string) :
  match Service.update_status n u a s with
  | (s', Returned _) =>
      Service.status s' = n
      ∧ (∃ d : string,
           Service.history s' =
             Service.history s ++ [ServiceHistory.mk (Service.id s) u d]
           ∧ (a = None ∨ a = Some "" →
              d = "Status changed from " +:+ Service.status s +:+ " to "
                    +:+ n)
           ∧ (∀ i, a = Some i → i ≠ "" →
              d = ("Status changed from " +:+ Service.status s +:+ " to "
                     +:+ n) +:+ ": " +:+ i))
      ∧ s' = Service.set_history (Service.history s') (Service.set_status n s)
  | (s', Raised _) => s' = s
  end.
Proof.
  rewrite update_status_run.
  destruct (Service.transition_allowed n s).
  - split; [reflexivity|]. split; [|reflexivity].
    eexists. split; [reflexivity|]. split.
    + apply with_optional_info_absent.
    + intros i -> Hi. by apply with_optional_info_given.
  - destruct (py_in n Service.EMPLOYEE_REQUIRED_STATES && _); reflexivity.
Qed.

(** C4.  [update_status] raises exactly when [can_transition_to] answers
    false, it raises a [ValueError] and leaves the service untouched,
    and the message tells the cause: the missing-employee message when
    the target is employee-required and no employee is assigned, the
    no-such-edge message otherwise; the two messages are never the same
    text.  On a pending service without employee, asking for
    'scheduled' gives the missing-employee message. *)
Theorem update_status_rejection (s : Service.t) (n : string) (u : Z)
    (a : option string) :
  let missing :=
    ValueError "Cannot transition to this status without assigned employee" in
  let no_edge :=
    ValueError ("Invalid status transition from " +:+ Service.status s
                  +:+ " to " +:+ n) in
  (Service.can_transition_to n s = (s, Returned false)
   ↔ ∃ e, Service.update_status n u a s = (s, Raised e))
  ∧ (Service.can_transition_to n s = (s, Returned true)
     ↔ ∃ s', Service.update_status n u a s = (s', Returned tt))
  ∧ (n ∈ Service.EMPLOYEE_REQUIRED_STATES ∧ ¬ Service.employee_assigned s →
     Service.update_status n u a s = (s, Raised missing))
  ∧ (Service.can_transition_to n s = (s, Returned false) →
     ¬ (n ∈ Service.EMPLOYEE_REQUIRED_STATES ∧ ¬ Service.employee_assigned s) →
     Service.update_status n u a s = (s, Raised no_edge))
  ∧ missing ≠ no_edge
  ∧ (Service.status s = Service.STATUS_PENDING →
     Service.employee_id s = None →
     n = Service.STATUS_SCHEDULED →
     Service.update_status n u a s = (s, Raised missing)).
Proof.
  intros missing no_edge. subst missing no_edge.
  rewrite can_transition_to_run, update_status_run.
  assert (Hmiss := missing_employee_true s n).
  assert (Hna := missing_employee_not_allowed s n).
  destruct (Service.transition_allowed n s) eqn:Hal;
    destruct (py_in n Service.EMPLOYEE_REQUIRED_STATES
              && negb (truthy (Service.employee_id s))) eqn:Hm.
  - specialize (Hna eq_refl). discriminate.
  - repeat split.
    + intros [=].
    + intros (e & [=]).
    + eauto.
    + intros Hreq. apply Hmiss in Hreq. discriminate.
    + intros [=].
    + discriminate.
    + intros Hp He ->. exfalso.
      assert (Hreq : false = true); [|discriminate].
      apply Hmiss. split.
      * apply py_in_true. vm_compute. reflexivity.
      * intros (e & He' & _). congruence.
  - repeat split; eauto; try discriminate.
    + intros (s' & [=]).
    + intros _ Hn. exfalso. apply Hn. by apply Hmiss.
  - repeat split; eauto; try discriminate.
    + intros (s' & [=]).
    + intros Hreq. apply Hmiss in Hreq. discriminate.
    + intros Hp He ->. exfalso.
      assert (Hreq : false = true); [|discriminate].
      apply Hmiss. split.
      * apply py_in_true. vm_compute. reflexivity.
      * intros (e & He' & _). congruence.
Qed.

(** C10.  Who calls [update_status] does not matter for how the call
    ends: with the same service, target and note, two acting users
    both get the same exception (and the service untouched), or both
    succeed; on success the two resulting services are the same but
    for the [user_id] written on the one new history row. *)
Theorem update_status_actor_independent (s : Service.t) (n : string)
    (a : option string) (u1 u2 : Z) :
  match Service.update_status n u1 a s, Service.update_status n u2 a s with
  | (s1, Returned _), (s2, Returned _) =>
      ∃ (s' : Service.t) (d : string),
        s1 = Service.set_history
               (Service.history s ++ [ServiceHistory.mk (Service.id s) u1 d])
               s'
        ∧ s2 = Service.set_history
                 (Service.history s ++ [ServiceHistory.mk (Service.id s) u2 d])
                 s'
  | (s1, Raised e1), (s2, Raised e2) => s1 = s ∧ s2 = s ∧ e1 = e2
  | _, _ => False
  end.
Proof.
  rewrite !update_status_run.
  destruct (Service.transition_allowed n s).
  - do 2 eexists. split; reflexivity.
  - destruct (py_in n Service.EMPLOYEE_REQUIRED_STATES && _); done.
Qed.

(** ** [assign_employee] *)

Section assign_employee_properties.

Variable users : gmap Z User.t.

Lemma assign_employee_run (s : Service.t) (e u : Z) (emp : User.t) :
  users !! e = Some emp →
  Service.assign_employee users e u s =
    if String.eqb (Service.status s) Service.STATUS_PENDING then
      (Service.set_employee_id (Some e)
         (Service.set_history
            (Service.history s ++
               [ServiceHistory.mk (Service.id s) u
                  ("Service assigned to " +:+ User.get_full_name emp)])
            (Service.set_status Service.STATUS_ACCEPTED s)),
       Returned tt)
    else
      (Service.set_employee_id (Some e)
         (Service.set_history
            (Service.history s ++
               [ServiceHistory.mk (Service.id s) u
                  ("Service reassigned from " +:+
                     match Service.employee users s with
                     | Some o => User.get_full_name o
                     | None => "None"
                     end +:+ " to " +:+ User.get_full_name emp)])
            s),
       Returned tt).
Proof.
  intros Hemp.
  unfold Service.assign_employee, Service.bind, Service.get_self.
  destruct (String.eqb (Service.status s) Service.STATUS_PENDING); cbn;
    unfold Service.query_get_full_name; rewrite Hemp; reflexivity.
Qed.

(** C5.  Assigning an existing employee always returns and sets
    [employee_id] to the given key.  On a pending service the status
    becomes 'accepted' and the new history row reads "Service assigned
    to <employee full name>".  On any other status, 'finished' and
    'cancelled' included (no guard looks at the transition table), the
    status stays and the new row reads "Service reassigned from <old
    employee or None> to <employee full name>".  Nothing else
    changes. *)
Theorem assign_employee_effect (s : Service.t) (e u : Z) (emp : User.t)
    (Hemp : users !! e = Some emp) :
  ∃ s' : Service.t,
    Service.assign_employee users e u s = (s', Returned tt)
    ∧ Service.employee_id s' = Some e
    ∧ (Service.status s = Service.STATUS_PENDING →
       Service.status s' = Service.STATUS_ACCEPTED
       ∧ Service.history s' =
           Service.history s ++
             [ServiceHistory.mk (Service.id s) u
                ("Service assigned to " +:+ User.get_full_name emp)])
    ∧ (Service.status s ≠ Service.STATUS_PENDING →
       Service.status s' = Service.status s
       ∧ ∃ old : string,
           Service.history s' =
             Service.history s ++
               [ServiceHistory.mk (Service.id s) u
                  ("Service reassigned from " +:+ old +:+ " to "
                     +:+ User.get_full_name emp)]
           ∧ old = match Service.employee users s with
                   | Some o => User.get_full_name o
                   | None => "None"
                   end)
    ∧ s' = Service.set_employee_id (Some e)
             (Service.set_history (Service.history s')
                (Service.set_status (Service.status s') s)).
Proof.
  rewrite (assign_employee_run s e u emp Hemp).
  destruct (String.eqb (Service.status s) Service.STATUS_PENDING) eqn:Hst.
  - apply String.eqb_eq in Hst.
    eexists. split; [reflexivity|]. split; [reflexivity|].
    split; [intros _; split; reflexivity|].
    split; [intros Hne; contradiction | reflexivity].
  - apply String.eqb_neq in Hst.
    eexists. split; [reflexivity|]. split; [reflexivity|].
    split; [intros Heq; contradiction|].
    split; [intros _; split; [reflexivity | eexists; split; reflexivity]|].
    destruct s; reflexivity.
Qed.

End assign_employee_properties.

(** ** Date negotiation and cancellation *)

Lemma request_date_change_run (strftime : datetime → string → string)
    (s : Service.t) (d : datetime) (u : Z) (c : bool) :
  Service.request_date_change strftime d u c s =
    if c then
      if py_in (Service.status s)
           [Service.STATUS_PENDING; Service.STATUS_ACCEPTED;
            Service.STATUS_SCHEDULED]
      then
        (Service.set_history
           (Service.history s ++
              [ServiceHistory.mk (Service.id s) u
                 ("Client requested date change to "
                    +:+ strftime d "%Y-%m-%d")])
           (Service.set_status Service.STATUS_PENDING
              (Service.set_preferred_date (Some d) s)),
         Returned tt)
      else
        (s, Raised
              (ValueError
                 "Client can only request date changes for pending or scheduled services"))
    else
      (Service.set_history
         (Service.history s ++
            [ServiceHistory.mk (Service.id s) u
               ("Employee proposed new date: " +:+ strftime d "%Y-%m-%d")])
         (Service.set_scheduled_date (Some d)
            (Service.set_status Service.STATUS_SCHEDULED
               (Service.set_preferred_date (Some d) s))),
       Returned tt).
Proof.
  unfold Service.request_date_change, Service.bind, Service.get_self.
  destruct c; cbn; [|reflexivity].
  destruct (py_in (Service.status s) _); reflexivity.
Qed.

Lemma confirm_date_run (s : Service.t) (u : Z) :
  Service.confirm_date u s =
    if negb (String.eqb (Service.status s) Service.STATUS_SCHEDULED) then
      (s, Raised (ValueError "Can only confirm dates for scheduled services"))
    else if negb (truthy (Service.employee_id s)) then
      (s, Raised (ValueError "Cannot confirm date without assigned employee"))
    else
      (Service.set_history
         (Service.history s ++
            [ServiceHistory.mk (Service.id s) u
               "Client confirmed the scheduled date"])
         (Service.set_status Service.STATUS_CLIENT_CONFIRMED s),
       Returned tt).
Proof.
  unfold Service.confirm_date, Service.bind, Service.get_self.
  destruct (String.eqb (Service.status s) Service.STATUS_SCHEDULED); cbn;
    [|reflexivity].
  destruct (truthy (Service.employee_id s)); reflexivity.
Qed.

Lemma reject_date_run (s : Service.t) (u : Z) (r : option string) :
  Service.reject_date u r s =
    if negb (String.eqb (Service.status s) Service.STATUS_SCHEDULED) then
      (s, Raised (ValueError "Can only reject dates for scheduled services"))
    else
      (Service.set_history
         (Service.history s ++
            [ServiceHistory.mk (Service.id s) u
               (Service.with_optional_info
                  "Client rejected the scheduled date" r)])
         (Service.set_status Service.STATUS_PENDING s),
       Returned tt).
Proof.
  unfold Service.reject_date, Service.bind, Service.get_self.
  destruct (String.eqb (Service.status s) Service.STATUS_SCHEDULED);
    reflexivity.
Qed.

Lemma transition_allowed_cancelled (s : Service.t) :
  Service.transition_allowed Service.STATUS_CANCELLED s =
    py_in Service.STATUS_CANCELLED
      (dict_get Service.STATUS_TRANSITIONS (Service.status s) []).
Proof.
  unfold Service.transition_allowed.
  replace (py_in Service.STATUS_CANCELLED Service.EMPLOYEE_REQUIRED_STATES)
    with false by (vm_compute; reflexivity).
  apply andb_true_r.
Qed.

Lemma cancel_run (s : Service.t) (u : Z) (r : option string) :
  Service.cancel u r s =
    if py_in Service.STATUS_CANCELLED
         (dict_get Service.STATUS_TRANSITIONS (Service.status s) [])
    then
      (Service.set_history
         (Service.history s ++
            [ServiceHistory.mk (Service.id s) u
               (Service.with_optional_info "Service cancelled" r)])
         (Service.set_status Service.STATUS_CANCELLED s),
       Returned tt)
    else
      (s, Raised
            (ValueError "Service cannot be cancelled in its current state")).
Proof.
  unfold Service.cancel, Service.bind.
  rewrite can_transition_to_run, transition_allowed_cancelled. cbn.
  destruct (py_in Service.STATUS_CANCELLED _); reflexivity.
Qed.

Lemma can_client_cancel_run (s : Service.t) :
  Service.can_client_cancel s =
    (s, Returned (py_in (Service.status s) Service.CLIENT_CANCELLABLE_STATES)).
Proof. reflexivity. Qed.

Lemma can_client_request_date_change_run (s : Service.t) :
  Service.can_client_request_date_change s =
    (s, Returned (py_in (Service.status s) Service.CLIENT_DATE_CHANGE_STATES)).
Proof. reflexivity. Qed.


(** ** The employee requirement along the workflow *)

Section reachability.

Variable users : gmap Z User.t.
Variable strftime : datetime → string → string.

(** Every operation but the employee's date proposal keeps the
    requirement. *)
Lemma employee_requirement_step (o : Service.op) (s s' : Service.t) :
  (∀ d u, o ≠ Service.RequestDateChange d u false) →
  Service.run_op users strftime o s = (s', Returned tt) →
  Service.employee_requirement s →
  Service.employee_requirement s'.
Proof.
  intros Ho Hrun Hinv. unfold Service.employee_requirement in *.
  destruct o as [n u a | e u | d u c | u | u r | u r];
    unfold Service.run_op in Hrun.
  - rewrite update_status_run in Hrun.
    destruct (Service.transition_allowed n s) eqn:Hal.
    + injection Hrun as <-. cbn. intros Hn.
      apply transition_allowed_true in Hal as [_ [Hal | Hal]];
        [contradiction | by apply employee_assigned_is_Some].
    + destruct (py_in n Service.EMPLOYEE_REQUIRED_STATES && _); discriminate.
  - unfold Service.assign_employee, Service.bind, Service.get_self,
      Service.query_get_full_name in Hrun.
    destruct (String.eqb (Service.status s) Service.STATUS_PENDING);
      cbn in Hrun; destruct (users !! e); cbn in Hrun; try discriminate;
      injection Hrun as <-; cbn; eauto.
  - rewrite request_date_change_run in Hrun.
    destruct c; [|by destruct (Ho d u)].
    destruct (py_in (Service.status s) _); [|discriminate].
    injection Hrun as <-. cbn. intros Hn. exfalso. revert Hn.
    apply py_in_false. vm_compute. reflexivity.
  - rewrite confirm_date_run in Hrun.
    destruct (negb (String.eqb _ _)); [discriminate|].
    destruct (truthy (Service.employee_id s)) eqn:Ht; [|discriminate].
    injection Hrun as <-. cbn. intros _.
    apply employee_assigned_is_Some. by apply truthy_employee_id.
  - rewrite reject_date_run in Hrun.
    destruct (negb (String.eqb _ _)); [discriminate|].
    injection Hrun as <-. cbn. intros Hn. exfalso. revert Hn.
    apply py_in_false. vm_compute. reflexivity.
  - rewrite cancel_run in Hrun.
    destruct (py_in Service.STATUS_CANCELLED _); [|discriminate].
    injection Hrun as <-. cbn. intros Hn. exfalso. revert Hn.
    apply py_in_false. vm_compute. reflexivity.
Qed.


(** C3.  The requirement does not hold along the workflow: on a fresh
    request (pending, nobody assigned) [request_date_change] with
    [is_client_request=False] returns, and the service it leaves is
    reachable, has the employee-required status 'scheduled' and has a
    null [employee_id]. *)
Theorem employee_proposal_breaks_requirement (d : datetime) (u : Z) :
  let s0 := Service.sample "pending" None [] in
  ∃ s' : Service.t,
    Service.fresh s0
    ∧ Service.request_date_change strftime d u false s0 = (s', Returned tt)
    ∧ Service.reachable users strftime s'
    ∧ Service.status s' = "scheduled"
    ∧ "scheduled" ∈ Service.EMPLOYEE_REQUIRED_STATES
    ∧ Service.employee_id s' = None
    ∧ ¬ Service.employee_requirement s'.
Proof.
  intros s0.
  assert (Hreq : "scheduled" ∈ Service.EMPLOYEE_REQUIRED_STATES)
    by (apply py_in_true; vm_compute; reflexivity).
  assert (Hfresh : Service.fresh s0) by (split; reflexivity).
  eexists. split; [exact Hfresh|].
  split; [rewrite request_date_change_run; reflexivity|].
  split; [|split; [reflexivity | split; [exact Hreq | split; [reflexivity|]]]].
  - eapply Service.reachable_step
      with (o := Service.RequestDateChange d u false);
      [apply Service.reachable_fresh, Hfresh|].
    unfold Service.run_op. rewrite request_date_change_run. reflexivity.
  - intros H. destruct (H Hreq) as [e He]. discriminate.
Qed.

(** C6.  The guard of [request_date_change] for a client is not the
    list [CLIENT_DATE_CHANGE_STATES] that [can_client_request_date_change]
    tests.  On a pending service the predicate says no, yet the request
    returns (the date is stored, the status stays 'pending', one row is
    appended); on a client-confirmed service the predicate says yes,
    yet the request raises and leaves the service untouched. *)
Theorem client_date_change_guard_mismatch (d : datetime) (u : Z) :
  let pending := Service.sample "pending" None [] in
  let confirmed := Service.sample "client_confirmed" (Some 3) [] in
  Service.can_client_request_date_change pending = (pending, Returned false)
  ∧ (∃ s' : Service.t,
       Service.request_date_change strftime d u true pending
         = (s', Returned tt)
       ∧ Service.status s' = "pending"
       ∧ Service.preferred_date s' = Some d
       ∧ Service.history s' =
           [ServiceHistory.mk 1 u
              ("Client requested date change to " +:+ strftime d "%Y-%m-%d")])
  ∧ Service.can_client_request_date_change confirmed
      = (confirmed, Returned true)
  ∧ Service.request_date_change strftime d u true confirmed
      = (confirmed,
         Raised
           (ValueError
              "Client can only request date changes for pending or scheduled services")).
Proof.
  intros pending confirmed.
  split; [reflexivity|]. split; [|split; [reflexivity|]].
  - eexists. split; [rewrite request_date_change_run; reflexivity|].
    repeat split.
  - rewrite request_date_change_run. reflexivity.
Qed.

(** What a client's date-change request does in general: it raises,
    leaving the service untouched, unless the status is 'pending',
    'accepted' or 'scheduled'; otherwise it stores the date as
    [preferred_date], sets the status to 'pending' and appends one row
    naming the date, attributed to the caller. *)
Lemma client_date_change_effect (s : Service.t) (d : datetime) (u : Z) :
  match Service.request_date_change strftime d u true s with
  | (s', Returned _) =>
      (Service.status s = "pending" ∨ Service.status s = "accepted"
       ∨ Service.status s = "scheduled")
      ∧ Service.preferred_date s' = Some d
      ∧ Service.status s' = "pending"
      ∧ Service.history s' =
          Service.history s ++
            [ServiceHistory.mk (Service.id s) u
               ("Client requested date change to "
                  +:+ strftime d "%Y-%m-%d")]
  | (s', Raised _) =>
      s' = s
      ∧ ¬ (Service.status s = "pending" ∨ Service.status s = "accepted"
           ∨ Service.status s = "scheduled")
  end.
Proof.
  rewrite request_date_change_run.
  destruct (py_in (Service.status s) _) eqn:Hin.
  - apply py_in_true in Hin. rewrite !elem_of_cons, elem_of_nil in Hin.
    repeat split. tauto.
  - apply py_in_false in Hin. rewrite !elem_of_cons, elem_of_nil in Hin.
    split; [reflexivity | tauto].
Qed.

End reachability.

(** ** [validate_costs] *)

Section validate_costs_properties.

Variable float_of_string : string → option float.

Lemma validate_costs_estimated_run (s : Service.t) (x : string) :
  Service.validate_costs float_of_string (Some x) None s =
    if truthy x then
      match float_of_string x with
      | Some v => (Service.set_estimated_cost (Some v) s, Returned tt)
      | None =>
          (s, Raised (ValueError "Estimated cost must be a valid number"))
      end
    else (Service.set_estimated_cost None s, Returned tt).
Proof.
  unfold Service.validate_costs, Service.bind, Service.try_except_ValueError,
    Service.py_float.
  destruct (truthy x); [|reflexivity].
  destruct (float_of_string x); reflexivity.
Qed.

Lemma validate_costs_actual_run (s : Service.t) (x : string) :
  Service.validate_costs float_of_string None (Some x) s =
    if truthy x then
      match float_of_string x with
      | Some v => (Service.set_actual_cost (Some v) s, Returned tt)
      | None => (s, Raised (ValueError "Actual cost must be a valid number"))
      end
    else (Service.set_actual_cost None s, Returned tt).
Proof.
  unfold Service.validate_costs, Service.bind, Service.try_except_ValueError,
    Service.py_float, Service.ret.
  destruct (truthy x); [|reflexivity].
  destruct (float_of_string x); reflexivity.
Qed.

Lemma str_truthy_nonempty (x : string) : truthy x = true ↔ x ≠ "".
Proof. destruct x; cbn; split; done. Qed.

(** [validate_costs] on any pair of arguments, against the reading of
    the two arguments: the estimated cost is handled first, and a
    refused argument ends the call where it stands. *)
Lemma validate_costs_run (estimated_cost actual_cost : option string)
    (s : Service.t) :
  Service.validate_costs float_of_string estimated_cost actual_cost s =
    match Service.read_cost_input float_of_string estimated_cost with
    | Service.NotANumber =>
        (s, Raised (ValueError "Estimated cost must be a valid number"))
    | e =>
        let s1 :=
          Service.set_estimated_cost
            (Service.stored_after e (Service.estimated_cost s)) s in
        match Service.read_cost_input float_of_string actual_cost with
        | Service.NotANumber =>
            (s1, Raised (ValueError "Actual cost must be a valid number"))
        | a =>
            (Service.set_actual_cost
               (Service.stored_after a (Service.actual_cost s)) s1,
             Returned tt)
        end
    end.
Proof.
  unfold Service.validate_costs, Service.bind, Service.try_except_ValueError,
    Service.py_float, Service.ret, Service.assign, Service.raise,
    Service.read_cost_input.
  destruct s.
  destruct estimated_cost as [[|c x]|], actual_cost as [[|d y]|]; cbn;
    repeat (match goal with
            | |- context [float_of_string ?z] => destruct (float_of_string z)
            end; cbn);
    reflexivity.
Qed.

Lemma read_cost_input_number (x : string) (v : float) :
  x ≠ "" → float_of_string x = Some v →
  Service.read_cost_input float_of_string (Some x) = Service.Number v.
Proof. intros Hx Hv. destruct x; [done|]. cbn. by rewrite Hv. Qed.

Lemma read_cost_input_not_a_number (x : string) :
  x ≠ "" → float_of_string x = None →
  Service.read_cost_input float_of_string (Some x) = Service.NotANumber.
Proof. intros Hx Hv. destruct x; [done|]. cbn. by rewrite Hv. Qed.

(** C8.  For the estimated and for the actual cost alike, whatever is
    passed for the other one: the empty string clears the stored field
    to null; a non-empty string that [float] accepts stores the number
    it denotes ("150.5" stores 150.5); a non-empty string that [float]
    rejects ("abc") raises [ValueError] with "... must be a valid
    number" and leaves the stored field as it was.  The estimated cost
    is handled first: when it is rejected the service is untouched and
    the actual cost is not looked at; when the actual cost is rejected
    the estimated cost has been handled.  With one argument passed the
    service is otherwise as it was. *)
Theorem validate_costs_setters (s : Service.t) (x : string)
    (estimated_cost actual_cost : option string) :
  (Service.validate_costs float_of_string (Some "") None s
     = (Service.set_estimated_cost None s, Returned tt)
   ∧ Service.estimated_cost (Service.set_estimated_cost None s) = None)
  ∧ (∀ v : float, x ≠ "" → float_of_string x = Some v →
     Service.validate_costs float_of_string (Some x) None s
       = (Service.set_estimated_cost (Some v) s, Returned tt)
     ∧ Service.estimated_cost (Service.set_estimated_cost (Some v) s)
         = Some v)
  ∧ (x ≠ "" → float_of_string x = None →
     Service.validate_costs float_of_string (Some x) None s
       = (s, Raised (ValueError "Estimated cost must be a valid number")))
  ∧ (Service.validate_costs float_of_string None (Some "") s
       = (Service.set_actual_cost None s, Returned tt)
     ∧ Service.actual_cost (Service.set_actual_cost None s) = None)
  ∧ (∀ v : float, x ≠ "" → float_of_string x = Some v →
     Service.validate_costs float_of_string None (Some x) s
       = (Service.set_actual_cost (Some v) s, Returned tt)
     ∧ Service.actual_cost (Service.set_actual_cost (Some v) s) = Some v)
  ∧ (x ≠ "" → float_of_string x = None →
     Service.validate_costs float_of_string None (Some x) s
       = (s, Raised (ValueError "Actual cost must be a valid number")))
  ∧ (float_of_string "150.5" = Some 150.5%float →
     Service.validate_costs float_of_string (Some "150.5") None s
       = (Service.set_estimated_cost (Some 150.5%float) s, Returned tt)
     ∧ Service.validate_costs float_of_string None (Some "150.5") s
         = (Service.set_actual_cost (Some 150.5%float) s, Returned tt))
  ∧ (float_of_string "abc" = None →
     Service.validate_costs float_of_string (Some "abc") None s
       = (s, Raised (ValueError "Estimated cost must be a valid number"))
     ∧ Service.validate_costs float_of_string None (Some "abc") s
         = (s, Raised (ValueError "Actual cost must be a valid number")))
  (* any pair of arguments *)
  ∧ Service.validate_costs float_of_string estimated_cost actual_cost s =
      match Service.read_cost_input float_of_string estimated_cost with
      | Service.NotANumber =>
          (s, Raised (ValueError "Estimated cost must be a valid number"))
      | e =>
          let s1 :=
            Service.set_estimated_cost
              (Service.stored_after e (Service.estimated_cost s)) s in
          match Service.read_cost_input float_of_string actual_cost with
          | Service.NotANumber =>
              (s1, Raised (ValueError "Actual cost must be a valid number"))
          | a =>
              (Service.set_actual_cost
                 (Service.stored_after a (Service.actual_cost s)) s1,
               Returned tt)
          end
      end
  (* the estimated cost, whatever is passed for the actual cost *)
  ∧ Service.estimated_cost
      (Service.validate_costs float_of_string (Some "") actual_cost s).1
      = None
  ∧ (∀ v : float, x ≠ "" → float_of_string x = Some v →
     Service.estimated_cost
       (Service.validate_costs float_of_string (Some x) actual_cost s).1
       = Some v)
  ∧ (x ≠ "" → float_of_string x = None →
     Service.validate_costs float_of_string (Some x) actual_cost s
       = (s, Raised (ValueError "Estimated cost must be a valid number")))
  (* the actual cost, whatever is passed for the estimated cost and
     accepted there *)
  ∧ (Service.read_cost_input float_of_string estimated_cost
       ≠ Service.NotANumber →
     ∃ s' : Service.t,
       Service.validate_costs float_of_string estimated_cost (Some "") s
         = (s', Returned tt)
       ∧ Service.actual_cost s' = None
       ∧ Service.estimated_cost s' =
           Service.stored_after
             (Service.read_cost_input float_of_string estimated_cost)
             (Service.estimated_cost s))
  ∧ (∀ v : float, x ≠ "" → float_of_string x = Some v →
     Service.read_cost_input float_of_string estimated_cost
       ≠ Service.NotANumber →
     ∃ s' : Service.t,
       Service.validate_costs float_of_string estimated_cost (Some x) s
         = (s', Returned tt)
       ∧ Service.actual_cost s' = Some v
       ∧ Service.estimated_cost s' =
           Service.stored_after
             (Service.read_cost_input float_of_string estimated_cost)
             (Service.estimated_cost s))
  ∧ (x ≠ "" → float_of_string x = None →
     Service.read_cost_input float_of_string estimated_cost
       ≠ Service.NotANumber →
     ∃ s' : Service.t,
       Service.validate_costs float_of_string estimated_cost (Some x) s
         = (s', Raised (ValueError "Actual cost must be a valid number"))
       ∧ Service.actual_cost s' = Service.actual_cost s
       ∧ Service.estimated_cost s' =
           Service.stored_after
             (Service.read_cost_input float_of_string estimated_cost)
             (Service.estimated_cost s)).
Proof.
  rewrite !validate_costs_estimated_run, !validate_costs_actual_run.
  assert (Ht : ∀ y : string, y ≠ "" → truthy y = true)
    by (intros y; apply str_truthy_nonempty).
  split_and!; try reflexivity.
  - intros v Hx Hv. by rewrite (Ht _ Hx), Hv.
  - intros Hx Hv. by rewrite (Ht _ Hx), Hv.
  - intros v Hx Hv. by rewrite (Ht _ Hx), Hv.
  - intros Hx Hv. by rewrite (Ht _ Hx), Hv.
  - intros Hv. cbn. by rewrite Hv.
  - intros Hv. cbn. by rewrite Hv.
  - apply validate_costs_run.
  - rewrite validate_costs_run. cbn.
    by destruct (Service.read_cost_input float_of_string actual_cost).
  - intros v Hx Hv.
    rewrite validate_costs_run, (read_cost_input_number x v Hx Hv). cbn.
    by destruct (Service.read_cost_input float_of_string actual_cost).
  - intros Hx Hv.
    by rewrite validate_costs_run, (read_cost_input_not_a_number x Hx Hv).
  - intros He. rewrite validate_costs_run. cbn.
    destruct (Service.read_cost_input float_of_string estimated_cost);
      [eexists; split_and!; reflexivity .. | done].
  - intros v Hx Hv He.
    rewrite validate_costs_run, (read_cost_input_number x v Hx Hv).
    destruct (Service.read_cost_input float_of_string estimated_cost);
      [eexists; split_and!; reflexivity .. | done].
  - intros Hx Hv He.
    rewrite validate_costs_run, (read_cost_input_not_a_number x Hx Hv).
    destruct (Service.read_cost_input float_of_string estimated_cost);
      [eexists; split_and!; reflexivity .. | done].
Qed.

End validate_costs_properties.

(** ** The vehicle forms *)





Section vehicle_form_properties.

Variable now_year : Z.
Variable show_year : Z → string.
Variable rows : list Vehicle.t.
Variable vehicle : option Vehicle.t.

Lemma year_accepted (y : Z) :
  validators.accepted (VehicleForm.year now_year show_year) (Some y) = true
  ↔ 1900 ≤ y ≤ now_year + 1.
Proof.
  unfold validators.accepted. rewrite bool_decide_eq_true. cbn.
  unfold validators.DataRequired, validators.NumberRange. cbn.
  unfold truthy, int_truthy.
  destruct (Z.eqb_spec y 0) as [-> | Hy0]; cbn; [split; [done | lia]|].
  destruct (Z.leb_spec 1900 y), (Z.leb_spec y (now_year + 1)); cbn;
    split; (done || lia).
Qed.


End vehicle_form_properties.

(** ** Further facts about the engine *)

(** Among the statuses of the transition table, the employee-required
    ones are all but 'pending' and 'cancelled'. *)
Lemma employee_required_states_spec (st : string) :
  is_Some (Service.STATUS_TRANSITIONS !! st) →
  st ∈ Service.EMPLOYEE_REQUIRED_STATES ↔ st ≠ "pending" ∧ st ≠ "cancelled".
Proof.
  intros Hst. apply elem_of_dom in Hst.
  unfold Service.STATUS_TRANSITIONS in Hst.
  rewrite dom_list_to_map_L, elem_of_list_to_set in Hst. cbn in Hst.
  rewrite !elem_of_cons, elem_of_nil in Hst.
  rewrite <- py_in_true.
  repeat (destruct Hst as [-> | Hst];
          [vm_compute; split;
           [ intros Hin; first [ split; discriminate | discriminate Hin ]
           | intros [H1 H2]; first [ reflexivity | by destruct H1
                                   | by destruct H2 ] ] |]).
  destruct Hst.
Qed.

(** An unknown employee key makes [assign_employee] raise, on a pending
    service after the status was already set to 'accepted'. *)
Lemma assign_employee_unknown (users : gmap Z User.t) (s : Service.t)
    (e u : Z) :
  users !! e = None →
  Service.assign_employee users e u s =
    (if String.eqb (Service.status s) Service.STATUS_PENDING
     then Service.set_status Service.STATUS_ACCEPTED s else s,
     Raised
       (AttributeError "'NoneType' object has no attribute 'get_full_name'")).
Proof.
  intros He.
  unfold Service.assign_employee, Service.bind, Service.get_self.
  destruct (String.eqb (Service.status s) Service.STATUS_PENDING); cbn;
    unfold Service.query_get_full_name; rewrite He; reflexivity.
Qed.

(** [validate_costs] handles the estimated cost first: when the actual
    cost is then rejected, the estimated cost is already stored. *)
Lemma validate_costs_second_raises (float_of_string : string → option float)
    (s : Service.t) (x y : string) (v : float) :
  x ≠ "" → float_of_string x = Some v →
  y ≠ "" → float_of_string y = None →
  Service.validate_costs float_of_string (Some x) (Some y) s =
    (Service.set_estimated_cost (Some v) s,
     Raised (ValueError "Actual cost must be a valid number")).
Proof.
  intros Hx Hv Hy Hn.
  apply str_truthy_nonempty in Hx, Hy.
  unfold Service.validate_costs, Service.bind, Service.try_except_ValueError,
    Service.py_float.
  rewrite Hx, Hy, Hv, Hn. reflexivity.
Qed.

(** The scenario of the specification: a pending request is assigned
    to an employee, then scheduled; the service ends 'scheduled' with
    two history rows. *)
Example assign_then_schedule :
  ∃ s1 s2 : Service.t,
    Service.assign_employee sample_users 5 9 (Service.sample "pending" None [])
      = (s1, Returned tt)
    ∧ Service.status s1 = "accepted"
    ∧ Service.update_status "scheduled" 9 None s1 = (s2, Returned tt)
    ∧ Service.status s2 = "scheduled"
    ∧ Service.history s2 =
        [ServiceHistory.mk 1 9 "Service assigned to Anna Nowak";
         ServiceHistory.mk 1 9 "Status changed from accepted to scheduled"].
Proof. do 2 eexists. repeat split; vm_compute; reflexivity. Qed.

(** ** The theorems with hypotheses, at sample rows *)

(** [assign_employee_effect] on a pending and on a finished service,
    with the one employee of [sample_users]. *)
Lemma assign_employee_effect_witness :
  sample_users !! 5 = Some anna
  ∧ (∃ s' : Service.t,
       Service.assign_employee sample_users 5 9
         (Service.sample "pending" None []) = (s', Returned tt)
       ∧ Service.employee_id s' = Some 5
       ∧ Service.status s' = "accepted"
       ∧ Service.history s' =
           [ServiceHistory.mk 1 9 "Service assigned to Anna Nowak"])
  ∧ (∃ s' : Service.t,
       Service.assign_employee sample_users 5 9
         (Service.sample "finished" None []) = (s', Returned tt)
       ∧ Service.employee_id s' = Some 5
       ∧ Service.status s' = "finished"
       ∧ Service.history s' =
           [ServiceHistory.mk 1 9
              "Service reassigned from None to Anna Nowak"]).
Proof.
  split; [reflexivity|]. split.
  - destruct (assign_employee_effect sample_users
                (Service.sample "pending" None []) 5 9 anna eq_refl)
      as (s' & Hrun & Hemp & Hpending & _ & _).
    destruct (Hpending eq_refl) as [Hst Hhist].
    exists s'. repeat split; assumption.
  - destruct (assign_employee_effect sample_users
                (Service.sample "finished" None []) 5 9 anna eq_refl)
      as (s' & Hrun & Hemp & _ & Hother & _).
    destruct Hother as (Hst & old & Hhist & ->); [discriminate|].
    exists s'. repeat split; assumption.
Defined.




(** * Further properties of the engine, the forms and the views *)

(** ** The transition table *)

Lemma known_status_elem (st : string) :
  Service.known_status st ↔
  st ∈ [Service.STATUS_PENDING; Service.STATUS_ACCEPTED;
        Service.STATUS_SCHEDULED; Service.STATUS_CLIENT_CONFIRMED;
        Service.STATUS_WAITING_FOR_VEHICLE; Service.STATUS_VEHICLE_RECEIVED;
        Service.STATUS_DIAGNOSIS_PENDING; Service.STATUS_DIAGNOSIS_COMPLETED;
        Service.STATUS_CLIENT_CONSULTATION; Service.STATUS_CLIENT_APPROVED;
        Service.STATUS_WAITING_FOR_PARTS; Service.STATUS_IN_PROGRESS;
        Service.STATUS_COMPLETED; Service.STATUS_READY_FOR_PAYMENT;
        Service.STATUS_PAYMENT_RECEIVED; Service.STATUS_READY_FOR_PICKUP;
        Service.STATUS_FINISHED; Service.STATUS_CANCELLED].
Proof.
  unfold Service.known_status. rewrite <- elem_of_dom.
  unfold Service.STATUS_TRANSITIONS.
  rewrite dom_list_to_map_L, elem_of_list_to_set. reflexivity.
Qed.

(** Case analysis on a known status: [tac] is run with the status
    replaced by each of the eighteen constants. *)
Ltac each_known_status H tac :=
  apply known_status_elem in H;
  rewrite !elem_of_cons, elem_of_nil in H;
  repeat (destruct H as [-> | H]; [tac |]);
  destruct H.

Lemma unknown_status_no_edges (st : string) :
  ¬ Service.known_status st →
  dict_get Service.STATUS_TRANSITIONS st [] = [].
Proof.
  unfold Service.known_status, dict_get. intros H.
  destruct (Service.STATUS_TRANSITIONS !! st); [|reflexivity].
  exfalso. apply H. eauto.
Qed.

Lemma known_status_dec (st : string) :
  Service.known_status st ∨ ¬ Service.known_status st.
Proof.
  unfold Service.known_status.
  destruct (Service.STATUS_TRANSITIONS !! st);
    [left; eauto | right; by intros [? ?]].
Qed.

(** Every target of an edge is itself a row of the table. *)
Lemma edges_closed (st n : string) :
  n ∈ dict_get Service.STATUS_TRANSITIONS st [] → Service.known_status n.
Proof.
  destruct (known_status_dec st) as [Hst | Hst].
  - each_known_status Hst
      ltac:(vm_compute dict_get; rewrite ?elem_of_cons, elem_of_nil;
            intros Hn; repeat (destruct Hn as [-> | Hn]; [by vm_compute; eauto|]);
            destruct Hn).
  - rewrite (unknown_status_no_edges _ Hst), elem_of_nil. tauto.
Qed.

(** No status has an edge to itself. *)
Lemma no_self_edge (st : string) :
  st ∉ dict_get Service.STATUS_TRANSITIONS st [].
Proof.
  destruct (known_status_dec st) as [Hst | Hst].
  - each_known_status Hst ltac:(apply py_in_false; vm_compute; reflexivity).
  - rewrite (unknown_status_no_edges _ Hst), elem_of_nil. tauto.
Qed.



(** The one edge into 'finished' leaves 'ready_for_pickup'. *)
Lemma edge_to_finished (st : string) :
  Service.STATUS_FINISHED ∈ dict_get Service.STATUS_TRANSITIONS st []
  ↔ st = Service.STATUS_READY_FOR_PICKUP.
Proof.
  split.
  - destruct (known_status_dec st) as [Hst | Hst].
    + each_known_status Hst
        ltac:(first [ reflexivity
                    | intros Hin; exfalso; revert Hin; apply py_in_false;
                      vm_compute; reflexivity ]).
    + rewrite (unknown_status_no_edges _ Hst), elem_of_nil. tauto.
  - intros ->. apply py_in_true. vm_compute. reflexivity.
Qed.

(** ** More of the workflow methods *)

(** X1.  [confirm_date] returns exactly on a scheduled service with an
    employee assigned; it then sets the status to 'client_confirmed' and
    appends the one row "Client confirmed the scheduled date".  On any
    other status it raises the not-scheduled error, whatever the
    employee; on a scheduled service without employee it raises the
    missing-employee error; a call that raises leaves the service as it
    was. *)
Theorem confirm_date_contract (s : Service.t) (u : Z) :
  ((∃ s', Service.confirm_date u s = (s', Returned tt))
   ↔ Service.status s = "scheduled" ∧ Service.employee_assigned s)
  ∧ (Service.status s = "scheduled" → Service.employee_assigned s →
     Service.confirm_date u s =
       (Service.set_history
          (Service.history s ++
             [ServiceHistory.mk (Service.id s) u
                "Client confirmed the scheduled date"])
          (Service.set_status "client_confirmed" s),
        Returned tt))
  ∧ (Service.status s ≠ "scheduled" →
     Service.confirm_date u s =
       (s, Raised (ValueError "Can only confirm dates for scheduled services")))
  ∧ (Service.status s = "scheduled" → ¬ Service.employee_assigned s →
     Service.confirm_date u s =
       (s, Raised (ValueError "Cannot confirm date without assigned employee"))).
Proof.
  rewrite confirm_date_run.
  assert (Ht := truthy_employee_id s).
  destruct (String.eqb_spec (Service.status s) Service.STATUS_SCHEDULED)
    as [Hst | Hst]; cbn [negb];
    destruct (truthy (Service.employee_id s)) eqn:He; cbn [negb].
  - split_and!; try done.
    + split; [intros _; split; [done | by apply Ht] | eauto].
    + intros _ Hn. exfalso. apply Hn. by apply Ht.
  - split_and!; try done.
    + split; [intros (s' & [=]) | intros [_ Ha]; apply Ht in Ha; done].
    + intros _ Ha. apply Ht in Ha. done.
  - split_and!; try done.
    split; [intros (s' & [=]) | intros [Hs _]; done].
  - split_and!; try done.
    split; [intros (s' & [=]) | intros [Hs _]; done].
Qed.

(** X2.  [reject_date] returns exactly on a scheduled service; it sets
    the status back to 'pending', keeps the assigned employee and
    appends the one row "Client rejected the scheduled date", followed
    by ": <reason>" for a non-empty reason.  On any other status it
    raises and leaves the service as it was. *)
Theorem reject_date_contract (s : Service.t) (u : Z) (r : option string) :
  (Service.status s = "scheduled" →
   ∃ s', Service.reject_date u r s = (s', Returned tt)
         ∧ Service.status s' = "pending"
         ∧ Service.employee_id s' = Service.employee_id s
         ∧ (∃ d, Service.history s' =
                   Service.history s ++ [ServiceHistory.mk (Service.id s) u d]
                 ∧ (r = None ∨ r = Some "" →
                    d = "Client rejected the scheduled date")
                 ∧ (∀ i, r = Some i → i ≠ "" →
                    d = "Client rejected the scheduled date: " +:+ i)))
  ∧ (Service.status s ≠ "scheduled" →
     Service.reject_date u r s =
       (s, Raised (ValueError "Can only reject dates for scheduled services"))).
Proof.
  rewrite reject_date_run.
  destruct (String.eqb_spec (Service.status s) Service.STATUS_SCHEDULED)
    as [Hst | Hst]; cbn [negb]; split; try done.
  intros _. eexists. split; [reflexivity|]. split; [reflexivity|].
  split; [reflexivity|]. eexists. split; [reflexivity|]. split.
  - apply with_optional_info_absent.
  - intros i -> Hi. by rewrite with_optional_info_given.
Qed.

(** X3.  The employee's date proposal ([request_date_change] with
    [is_client_request=False]) has no guard: it returns on every
    service, sets the status to 'scheduled' and both dates to the new
    date, keeps [employee_id] and appends one row.  It does so also
    where [can_employee_propose_date()] answers false and where the
    transition table has no edge to 'scheduled', as on a finished or
    cancelled service. *)
Theorem employee_proposal_unguarded (strftime : datetime → string → string)
    (s : Service.t) (d : datetime) (u : Z) :
  (∃ s', Service.request_date_change strftime d u false s = (s', Returned tt)
         ∧ Service.status s' = "scheduled"
         ∧ Service.preferred_date s' = Some d
         ∧ Service.scheduled_date s' = Some d
         ∧ Service.employee_id s' = Service.employee_id s
         ∧ Service.history s' =
             Service.history s ++
               [ServiceHistory.mk (Service.id s) u
                  ("Employee proposed new date: " +:+ strftime d "%Y-%m-%d")])
  ∧ (Service.status s = "finished" ∨ Service.status s = "cancelled" →
     Service.can_employee_propose_date s = (s, Returned false)
     ∧ Service.can_transition_to "scheduled" s = (s, Returned false)).
Proof.
  rewrite request_date_change_run. split.
  - eexists. repeat split.
  - rewrite can_transition_to_run.
    unfold Service.can_employee_propose_date, Service.transition_allowed,
      Service.bind, Service.get_self, Service.ret.
    intros [-> | ->]; split; reflexivity.
Qed.

(** X5.  The history is append-only under every workflow operation: a
    call that returns has appended exactly one row, which carries the
    service's id and the acting user passed to the call; a call that
    raises has left the history as it was. *)
Theorem history_append_only (users : gmap Z User.t)
    (strftime : datetime → string → string) (o : Service.op)
    (s : Service.t) :
  match Service.run_op users strftime o s with
  | (s', Returned _) =>
      ∃ d : string,
        Service.history s' =
          Service.history s
            ++ [ServiceHistory.mk (Service.id s) (Service.op_user o) d]
  | (s', Raised _) => Service.history s' = Service.history s
  end.
Proof.
  destruct o as [n u a | e u | d u c | u | u r | u r];
    unfold Service.run_op, Service.op_user.
  - rewrite update_status_run.
    destruct (Service.transition_allowed n s); [eauto|].
    by destruct (py_in n Service.EMPLOYEE_REQUIRED_STATES && _).
  - destruct (users !! e) as [emp|] eqn:He.
    + rewrite (assign_employee_run users s e u emp He).
      destruct (String.eqb _ _); eauto.
    + rewrite (assign_employee_unknown users s e u He).
      by destruct (String.eqb _ _).
  - rewrite request_date_change_run.
    destruct c; [|eauto]. destruct (py_in _ _); [eauto | done].
  - rewrite confirm_date_run.
    destruct (negb _); [done|]. destruct (negb _); [done | eauto].
  - rewrite reject_date_run. destruct (negb _); [done | eauto].
  - rewrite cancel_run. destruct (py_in _ _); [eauto | done].
Qed.

(** X7.  No workflow operation, returning or raising, writes the
    columns that describe the request and the work done: id, vehicle,
    client, description, priority, diagnosis, service plan, both costs,
    parts and notes stay as they were. *)
Theorem workflow_leaves_request_data (users : gmap Z User.t)
    (strftime : datetime → string → string) (o : Service.op)
    (s : Service.t) :
  Service.same_request s (Service.run_op users strftime o s).1.
Proof.
  destruct o as [n u a | e u | d u c | u | u r | u r];
    unfold Service.run_op.
  - rewrite update_status_run.
    destruct (Service.transition_allowed n s); [by repeat split|].
    destruct (py_in n Service.EMPLOYEE_REQUIRED_STATES && _); by repeat split.
  - destruct (users !! e) as [emp|] eqn:He.
    + rewrite (assign_employee_run users s e u emp He).
      destruct (String.eqb _ _); by repeat split.
    + rewrite (assign_employee_unknown users s e u He).
      destruct (String.eqb _ _); by repeat split.
  - rewrite request_date_change_run.
    destruct c; [|by repeat split].
    destruct (py_in _ _); by repeat split.
  - rewrite confirm_date_run.
    destruct (negb _); [by repeat split|].
    destruct (negb _); by repeat split.
  - rewrite reject_date_run. destruct (negb _); by repeat split.
  - rewrite cancel_run. destruct (py_in _ _); by repeat split.
Qed.

(** X9.  No workflow operation, returning or raising, takes the
    employee off a service: an [employee_id] that is not null stays not
    null, and every operation but [assign_employee] leaves the column
    as it was. *)
Theorem employee_never_unassigned (users : gmap Z User.t)
    (strftime : datetime → string → string) (o : Service.op)
    (s : Service.t) :
  let s' := (Service.run_op users strftime o s).1 in
  (is_Some (Service.employee_id s) → is_Some (Service.employee_id s'))
  ∧ ((∀ e u, o ≠ Service.AssignEmployee e u) →
     Service.employee_id s' = Service.employee_id s).
Proof.
  cbv zeta.
  assert (Hkeep : (∀ e u, o ≠ Service.AssignEmployee e u) →
    Service.employee_id (Service.run_op users strftime o s).1
      = Service.employee_id s).
  { destruct o as [n u a | e u | d u c | u | u r | u r];
      unfold Service.run_op; intros Ho.
    - rewrite update_status_run.
      destruct (Service.transition_allowed n s); [done|].
      by destruct (py_in n Service.EMPLOYEE_REQUIRED_STATES && _).
    - by destruct (Ho e u).
    - rewrite request_date_change_run.
      destruct c; [|done]. by destruct (py_in _ _).
    - rewrite confirm_date_run.
      destruct (negb _); [done|]. by destruct (negb _).
    - rewrite reject_date_run. by destruct (negb _).
    - rewrite cancel_run. by destruct (py_in _ _). }
  split; [|exact Hkeep].
  destruct o as [n u a | e u | d u c | u | u r | u r];
    try (intros Hs; rewrite Hkeep; [exact Hs | discriminate]).
  intros Hs. unfold Service.run_op.
  destruct (users !! e) as [emp|] eqn:He.
  - rewrite (assign_employee_run users s e u emp He).
    destruct (String.eqb _ _); cbn; eauto.
  - rewrite (assign_employee_unknown users s e u He).
    destruct (String.eqb _ _); cbn; eauto.
Qed.

(** X4.  'finished' and 'cancelled' are absorbing for every guarded
    operation: on such a service [update_status] (to any target),
    [cancel], [confirm_date], [reject_date] and a client's
    [request_date_change] all raise and leave the service exactly as it
    was.  Only [assign_employee] and the employee's date proposal act
    on it. *)
Theorem terminal_states_absorbing (users : gmap Z User.t)
    (strftime : datetime → string → string) (o : Service.op)
    (s : Service.t) :
  Service.status s = "finished" ∨ Service.status s = "cancelled" →
  (∀ e u, o ≠ Service.AssignEmployee e u) →
  (∀ d u, o ≠ Service.RequestDateChange d u false) →
  ∃ e : exn, Service.run_op users strftime o s = (s, Raised e).
Proof.
  intros Hst Hassign Hprop.
  destruct o as [n u a | e u | d u c | u | u r | u r];
    unfold Service.run_op.
  - rewrite update_status_run.
    assert (Hal : Service.transition_allowed n s = false).
    { unfold Service.transition_allowed.
      destruct Hst as [-> | ->]; reflexivity. }
    rewrite Hal.
    destruct (py_in n Service.EMPLOYEE_REQUIRED_STATES && _); eauto.
  - by destruct (Hassign e u).
  - destruct c; [|by destruct (Hprop d u)].
    rewrite request_date_change_run.
    destruct Hst as [-> | ->]; eauto.
  - rewrite confirm_date_run. destruct Hst as [-> | ->]; eauto.
  - rewrite reject_date_run. destruct Hst as [-> | ->]; eauto.
  - rewrite cancel_run. destruct Hst as [-> | ->]; eauto.
Qed.

(** X6.  The status never leaves the table: on a service whose status
    is one of the eighteen rows of [STATUS_TRANSITIONS], every workflow
    operation, returning or raising, leaves a status that is again a
    row of the table (every edge target and every status a method
    writes is one). *)
Theorem status_stays_known (users : gmap Z User.t)
    (strftime : datetime → string → string) (o : Service.op)
    (s : Service.t) :
  Service.known_status (Service.status s) →
  Service.known_status
    (Service.status (Service.run_op users strftime o s).1).
Proof.
  intros Hst.
  assert (Hk : ∀ st, st ∈ ["pending"; "accepted"; "scheduled";
                            "client_confirmed"; "cancelled"] →
                     Service.known_status st).
  { intros st. rewrite !elem_of_cons, elem_of_nil.
    intros [-> | [-> | [-> | [-> | [-> | []]]]]]; vm_compute; eauto. }
  destruct o as [n u a | e u | d u c | u | u r | u r];
    unfold Service.run_op.
  - rewrite update_status_run.
    destruct (Service.transition_allowed n s) eqn:Hal.
    + apply transition_allowed_true in Hal as [Hedge _].
      cbn. by apply edges_closed in Hedge.
    + by destruct (py_in n Service.EMPLOYEE_REQUIRED_STATES && _).
  - destruct (users !! e) as [emp|] eqn:He.
    + rewrite (assign_employee_run users s e u emp He).
      destruct (String.eqb _ _); cbn; [apply Hk; set_solver | done].
    + rewrite (assign_employee_unknown users s e u He).
      destruct (String.eqb _ _); cbn; [apply Hk; set_solver | done].
  - rewrite request_date_change_run.
    destruct c; [|cbn; apply Hk; set_solver].
    destruct (py_in _ _); cbn; [apply Hk; set_solver | done].
  - rewrite confirm_date_run.
    destruct (negb _); [done|].
    destruct (negb _); cbn; [done | apply Hk; set_solver].
  - rewrite reject_date_run.
    destruct (negb _); cbn; [done | apply Hk; set_solver].
  - rewrite cancel_run.
    destruct (py_in _ _); cbn; [apply Hk; set_solver | done].
Qed.

Lemma update_status_returns (s : Service.t) (n : string) (u : Z)
    (a : option string) :
  n ∈ dict_get Service.STATUS_TRANSITIONS (Service.status s) [] →
  Service.employee_assigned s →
  Service.update_status n u a s =
    (Service.set_history
       (Service.history s ++
          [ServiceHistory.mk (Service.id s) u
             (Service.with_optional_info
                ("Status changed from " +:+ Service.status s +:+ " to "
                   +:+ n) a)])
       (Service.set_status n s),
     Returned tt).
Proof.
  intros Hedge Hemp. rewrite update_status_run.
  assert (Hal : Service.transition_allowed n s = true)
    by (apply transition_allowed_true; auto).
  by rewrite Hal.
Qed.

(** X8.  With an employee assigned, [update_status] can be called along
    any list of statuses that follows the edges of the table from the
    current status: every call returns, the service ends in the last
    status of the list, its history has grown by one row per call and
    the employee is the same. *)
Theorem update_status_along_edges (path : list string) (u : Z)
    (s : Service.t) :
  Service.employee_assigned s →
  Service.follows_edges (Service.status s) path →
  ∃ s' : Service.t,
    Service.update_status_each path u s = (s', Returned tt)
    ∧ Service.status s' = default (Service.status s) (last path)
    ∧ length (Service.history s')
        = (length (Service.history s) + length path)%nat
    ∧ Service.employee_id s' = Service.employee_id s.
Proof.
  revert s. induction path as [|n rest IH]; intros s Hemp Hpath.
  - exists s. cbn. repeat split. lia.
  - destruct Hpath as [Hedge Hrest].
    cbn [Service.update_status_each]. unfold Service.bind.
    rewrite (update_status_returns s n u None Hedge Hemp).
    set (s1 := Service.set_history _ _).
    destruct (IH s1) as (s' & Hrun & Hst & Hlen & He); [exact Hemp | exact Hrest |].
    exists s'. split; [exact Hrun|]. split; [|split; [|exact He]].
    + rewrite Hst, last_cons. cbn. by destruct (last rest).
    + rewrite Hlen. subst s1. cbn. rewrite length_app. cbn. lia.
Qed.

(** X10.  [can_be_updated()] returns, without touching the service,
    true exactly when the status requires an employee and is not
    'finished'; among the statuses of the table that is every status
    but 'pending', 'finished' and 'cancelled'. *)
Theorem can_be_updated_spec (s : Service.t) :
  ∃ b : bool,
    Service.can_be_updated s = (s, Returned b)
    ∧ (b = true ↔
         Service.status s ∈ Service.EMPLOYEE_REQUIRED_STATES
         ∧ Service.status s ≠ "finished")
    ∧ (Service.known_status (Service.status s) →
       (b = true ↔
          Service.status s ≠ "pending" ∧ Service.status s ≠ "finished"
          ∧ Service.status s ≠ "cancelled")).
Proof.
  exists (py_in (Service.status s) Service.UPDATABLE_STATES).
  split; [reflexivity|].
  assert (Hreq : ∀ st, st ∈ Service.UPDATABLE_STATES ↔
                       st ∈ Service.EMPLOYEE_REQUIRED_STATES
                       ∧ st ≠ "finished").
  { intros st.
    change Service.EMPLOYEE_REQUIRED_STATES
      with (Service.UPDATABLE_STATES ++ [Service.STATUS_FINISHED]).
    rewrite elem_of_app, list_elem_of_singleton.
    assert (Hfin : Service.STATUS_FINISHED ∉ Service.UPDATABLE_STATES)
      by (apply py_in_false; vm_compute; reflexivity).
    split; [|tauto]. intros Hin. split; [tauto|]. by intros ->. }
  rewrite py_in_true. split; [apply Hreq|].
  intros Hk. rewrite Hreq, (employee_required_states_spec _ Hk). tauto.
Qed.

(** X11.  There is no transition to the current status: for every
    service [can_transition_to(self.status)] is false and
    [update_status(self.status, ...)] raises, leaving the service as it
    was. *)
Theorem no_transition_to_current_status (s : Service.t) (u : Z)
    (a : option string) :
  Service.can_transition_to (Service.status s) s = (s, Returned false)
  ∧ ∃ e : exn,
      Service.update_status (Service.status s) u a s = (s, Raised e).
Proof.
  assert (Hal : Service.transition_allowed (Service.status s) s = false).
  { unfold Service.transition_allowed.
    assert (H := no_self_edge (Service.status s)).
    apply py_in_false in H. by rewrite H. }
  rewrite can_transition_to_run, update_status_run, Hal.
  split; [reflexivity|].
  destruct (py_in _ Service.EMPLOYEE_REQUIRED_STATES && _); eauto.
Qed.

(** X12.  [update_status], [confirm_date], [reject_date] and [cancel]
    only make transitions the table allows: whenever one of them
    returns, [can_transition_to] of the new status was true on the
    service as it was before the call (the edge exists and, for an
    employee-required target, an employee is assigned). *)
Theorem guarded_operations_follow_table (s : Service.t) (n : string)
    (u : Z) (a r : option string) :
  match Service.update_status n u a s with
  | (s', Returned _) =>
      Service.can_transition_to (Service.status s') s = (s, Returned true)
  | _ => True
  end
  ∧ match Service.confirm_date u s with
    | (s', Returned _) =>
        Service.can_transition_to (Service.status s') s = (s, Returned true)
    | _ => True
    end
  ∧ match Service.reject_date u r s with
    | (s', Returned _) =>
        Service.can_transition_to (Service.status s') s = (s, Returned true)
    | _ => True
    end
  ∧ match Service.cancel u r s with
    | (s', Returned _) =>
        Service.can_transition_to (Service.status s') s = (s, Returned true)
    | _ => True
    end.
Proof.
  rewrite update_status_run, confirm_date_run, reject_date_run, cancel_run.
  split_and!.
  - destruct (Service.transition_allowed n s) eqn:Hal.
    + rewrite can_transition_to_run. cbn. by rewrite Hal.
    + by destruct (py_in n Service.EMPLOYEE_REQUIRED_STATES && _).
  - destruct (String.eqb_spec (Service.status s) Service.STATUS_SCHEDULED)
      as [Hst | Hst]; cbn [negb]; [|done].
    destruct (truthy (Service.employee_id s)) eqn:He; cbn [negb]; [|done].
    rewrite can_transition_to_run. cbn.
    unfold Service.transition_allowed. by rewrite Hst, He.
  - destruct (String.eqb_spec (Service.status s) Service.STATUS_SCHEDULED)
      as [Hst | Hst]; cbn [negb]; [|done].
    rewrite can_transition_to_run. cbn.
    unfold Service.transition_allowed. by rewrite Hst.
  - destruct (py_in Service.STATUS_CANCELLED _) eqn:Hc; [|done].
    rewrite can_transition_to_run. cbn.
    by rewrite transition_allowed_cancelled, Hc.
Qed.

(** X13.  A service is finished through [update_status] only from
    'ready_for_pickup': [update_status('finished', ...)] returns
    exactly when the status is 'ready_for_pickup' and an employee is
    assigned. *)
Theorem finish_only_from_ready_for_pickup (s : Service.t) (u : Z)
    (a : option string) :
  (∃ s', Service.update_status "finished" u a s = (s', Returned tt))
  ↔ Service.status s = "ready_for_pickup" ∧ Service.employee_assigned s.
Proof.
  rewrite update_status_run.
  assert (Hreq : Service.STATUS_FINISHED ∈ Service.EMPLOYEE_REQUIRED_STATES)
    by (apply py_in_true; vm_compute; reflexivity).
  destruct (Service.transition_allowed "finished" s) eqn:Hal.
  - apply transition_allowed_true in Hal as [Hedge Hemp].
    apply edge_to_finished in Hedge.
    split; [intros _; split; [done | tauto] | eauto].
  - split.
    + destruct (py_in _ Service.EMPLOYEE_REQUIRED_STATES && _);
        intros (s' & [=]).
    + intros [Hst Hemp]. exfalso.
      apply not_true_iff_false in Hal. apply Hal.
      apply transition_allowed_true. split; [by apply edge_to_finished | auto].
Qed.

Lemma known_status_color (st : string) :
  Service.known_status st ↔ is_Some (Service.STATUS_COLORS !! st).
Proof.
  unfold Service.known_status. rewrite <- !elem_of_dom.
  unfold Service.STATUS_TRANSITIONS, Service.STATUS_COLORS.
  rewrite !dom_list_to_map_L, !elem_of_list_to_set. reflexivity.
Qed.

(** X14.  [status_color] returns, without touching the service, the
    fallback class 'secondary' exactly for a status that is not a row
    of the transition table: the two tables have the same keys and no
    status is mapped to 'secondary'. *)
Theorem status_color_fallback (s : Service.t) :
  ∃ c : string,
    Service.status_color s = (s, Returned c)
    ∧ (c = "secondary" ↔ ¬ Service.known_status (Service.status s)).
Proof.
  exists (dict_get Service.STATUS_COLORS (Service.status s) "secondary").
  split; [reflexivity|].
  destruct (known_status_dec (Service.status s)) as [Hk | Hk].
  - split; [|done]. intros Hc. exfalso. revert Hc.
    generalize (Service.status s) Hk. clear. intros st Hk.
    each_known_status Hk ltac:(vm_compute; discriminate).
  - split; [done|]. intros _.
    rewrite known_status_color in Hk. unfold dict_get.
    destruct (Service.STATUS_COLORS !! Service.status s); [|reflexivity].
    exfalso. apply Hk. eauto.
Qed.

(** ** Roles and permissions *)

(** X15.  The permissions of [User] follow the role: an admin may
    modify and delete anyone; an employee may modify clients only and
    delete no one; any other role may modify and delete no one.
    Whoever may delete a user may also modify that user, and no user
    has two of the roles admin, employee and client at once. *)
Theorem user_permissions (u target : User.t) :
  (User.is_admin u = true →
   User.can_modify_user u target = true
   ∧ User.can_delete_user u target = true
   ∧ User.can_change_role u = true)
  ∧ (User.is_employee u = true →
     User.can_modify_user u target = User.is_client target
     ∧ User.can_delete_user u target = false
     ∧ User.can_change_role u = false
     ∧ User.can_manage_users u = true)
  ∧ (User.is_admin u = false → User.is_employee u = false →
     User.can_modify_user u target = false
     ∧ User.can_delete_user u target = false
     ∧ User.can_manage_users u = false
     ∧ User.can_manage_vehicles u = false)
  ∧ (User.can_delete_user u target = true →
     User.can_modify_user u target = true)
  ∧ (User.is_admin u && User.is_employee u = false)
  ∧ (User.is_admin u && User.is_client u = false)
  ∧ (User.is_employee u && User.is_client u = false).
Proof.
  unfold User.can_modify_user, User.can_delete_user, User.can_change_role,
    User.can_manage_users, User.can_manage_vehicles,
    User.is_admin, User.is_employee, User.is_client.
  destruct (String.eqb_spec (User.role u) "admin") as [Ha | Ha];
    destruct (String.eqb_spec (User.role u) "employee") as [He | He];
    destruct (String.eqb_spec (User.role u) "client") as [Hc | Hc];
    try congruence; cbn; split_and!; try done.
Qed.

(** X16.  The role decorators end the request without running the
    view, and so without touching the service, for every user whose
    role is not the required one.  For any user at most one of the
    three gates is open; an administrator is refused by
    [employee_required] and by [client_required]. *)
Theorem role_gates (current_user : User.t) {A : Type}
    (f : A → Service.M flask.view) (args : A) (s : Service.t) :
  (User.role current_user ≠ "client" →
   decorators.client_required current_user f args s
     = (s, Returned decorators.denied))
  ∧ (User.role current_user ≠ "employee" →
     decorators.employee_required current_user f args s
       = (s, Returned decorators.denied))
  ∧ (User.role current_user ≠ "admin" →
     decorators.admin_required current_user f args s
       = (s, Returned decorators.denied))
  ∧ (User.role current_user = "client" →
     decorators.client_required current_user f args s = f args s)
  ∧ (User.role current_user = "employee" →
     decorators.employee_required current_user f args s = f args s)
  ∧ (User.role current_user = "admin" →
     decorators.admin_required current_user f args s = f args s
     ∧ decorators.employee_required current_user f args s
         = (s, Returned decorators.denied)
     ∧ decorators.client_required current_user f args s
         = (s, Returned decorators.denied)).
Proof.
  unfold decorators.client_required, decorators.employee_required,
    decorators.admin_required, User.is_client, User.is_employee,
    User.is_admin.
  destruct (String.eqb_spec (User.role current_user) "admin") as [Ha | Ha];
    destruct (String.eqb_spec (User.role current_user) "employee")
      as [He | He];
    destruct (String.eqb_spec (User.role current_user) "client")
      as [Hc | Hc];
    try congruence; cbn; split_and!; try done.
Qed.

(** ** The callers of the engine in the employee views *)

Lemma transition_allowed_ext (n : string) (s s' : Service.t) :
  Service.status s' = Service.status s →
  Service.employee_id s' = Service.employee_id s →
  Service.transition_allowed n s' = Service.transition_allowed n s.
Proof.
  unfold Service.transition_allowed. by intros -> ->.
Qed.

Lemma validate_costs_frame_aux (float_of_string : string → option float)
    (estimated_cost actual_cost : option string) (s : Service.t) :
  match Service.validate_costs float_of_string estimated_cost actual_cost s
  with
  | (s', r) =>
      (∃ e a, s' = Service.set_actual_cost a (Service.set_estimated_cost e s))
      ∧ match r with
        | Returned _ => True
        | Raised e => ∃ m, e = ValueError m
        end
  end.
Proof.
  assert (Hid : ∀ t : Service.t,
            t = Service.set_actual_cost (Service.actual_cost t)
                  (Service.set_estimated_cost (Service.estimated_cost t) t))
    by (by intros []).
  unfold Service.validate_costs, Service.bind, Service.try_except_ValueError,
    Service.py_float, Service.ret, Service.assign, Service.raise.
  destruct estimated_cost as [x|], actual_cost as [y|];
    repeat (match goal with
            | |- context [truthy ?z] => destruct (truthy z)
            | |- context [float_of_string ?z] => destruct (float_of_string z)
            end; cbn);
    (split; [| eauto]);
    first [ by exists (Service.estimated_cost s), (Service.actual_cost s)
          | by eexists _, (Service.actual_cost s)
          | by eexists (Service.estimated_cost s), _
          | by eexists _, _ ].
Qed.

(** X17.  [validate_costs] writes the two cost columns only, and the
    only exception it raises is a [ValueError] with one of its two
    "must be a valid number" messages: status, employee, dates,
    history and the other columns are as before, whether it returns or
    raises. *)
Theorem validate_costs_frame (float_of_string : string → option float)
    (estimated_cost actual_cost : option string) (s : Service.t) :
  match Service.validate_costs float_of_string estimated_cost actual_cost s
  with
  | (s', r) =>
      (∃ e a, s' = Service.set_actual_cost a (Service.set_estimated_cost e s))
      ∧ match r with
        | Returned _ => True
        | Raised e =>
            e = ValueError "Estimated cost must be a valid number"
            ∨ e = ValueError "Actual cost must be a valid number"
        end
  end.
Proof.
  assert (Hid : ∀ t : Service.t,
            t = Service.set_actual_cost (Service.actual_cost t)
                  (Service.set_estimated_cost (Service.estimated_cost t) t))
    by (by intros []).
  unfold Service.validate_costs, Service.bind, Service.try_except_ValueError,
    Service.py_float, Service.ret, Service.assign, Service.raise.
  destruct estimated_cost as [x|], actual_cost as [y|];
    repeat (match goal with
            | |- context [truthy ?z] => destruct (truthy z)
            | |- context [float_of_string ?z] => destruct (float_of_string z)
            end; cbn);
    (split; [| tauto]);
    first [ by exists (Service.estimated_cost s), (Service.actual_cost s)
          | by eexists _, (Service.actual_cost s)
          | by eexists (Service.estimated_cost s), _
          | by eexists _, _ ].
Qed.

(** X18.  The [update_service] view never ends in an exception: the
    [ValueError] of [validate_costs] is caught, and [update_status]
    cannot raise there, since [can_transition_to] was asked first and
    the cost and detail columns written in between do not enter its
    answer.  When the view reports success the status is the posted
    one, [can_transition_to] allowed it on the service as loaded, and
    exactly one history row was added; in every other outcome status,
    history and employee are as loaded. *)
Theorem update_service_outcome (float_of_string : string → option float)
    (current_user : User.t) (method : string) (form : gmap string string)
    (s : Service.t) :
  let success := [("Service updated successfully.", "success")] in
  match employee.update_service float_of_string current_user method form s
  with
  | (s', Returned (flashes, response)) =>
      (flashes = success →
       response = flask.redirect "employee.services"
       ∧ ∃ n : string,
           form !! "status" = Some n
           ∧ Service.can_transition_to n s = (s, Returned true)
           ∧ Service.status s' = n
           ∧ ∃ d : string,
               Service.history s' =
                 Service.history s
                   ++ [ServiceHistory.mk (Service.id s)
                         (User.id current_user) d])
      ∧ (flashes ≠ success →
         Service.status s' = Service.status s
         ∧ Service.history s' = Service.history s
         ∧ Service.employee_id s' = Service.employee_id s)
  | (_, Raised _) => False
  end.
Proof.
  cbv zeta.
  unfold employee.update_service.
  unfold Service.bind at 1. cbn [Service.can_be_updated].
  unfold Service.can_be_updated, Service.bind at 1, Service.get_self, Service.ret at 1.
  cbv beta iota zeta.
  destruct (py_in (Service.status s) Service.UPDATABLE_STATES) eqn:Hupd; cbn [negb].
  2:{ unfold Service.ret. split; [discriminate | done]. }
  destruct (String.eqb method "POST").
  2:{ unfold Service.ret. split; [discriminate | done]. }
  destruct (form !! "status") as [n|] eqn:Hn.
  2:{ unfold Service.ret. split; [discriminate | done]. }
  unfold Service.bind at 1. rewrite can_transition_to_run.
  destruct (Service.transition_allowed n s) eqn:Hal; cbn [negb].
  2:{ unfold Service.ret. split; [discriminate | done]. }
  assert (Hne : (n =? Service.status s)%string = false).
  { apply String.eqb_neq. intros ->.
    apply transition_allowed_true in Hal as [Hedge _].
    by apply no_self_edge in Hedge. }
  unfold Service.bind at 1, employee.try_except_ValueError_as,
    Service.bind at 1.
  pose proof (validate_costs_frame_aux float_of_string
                (form !! "estimated_cost") (form !! "actual_cost") s) as Hf.
  destruct (Service.validate_costs float_of_string _ _ s) as [s1 r].
  destruct Hf as [(e & a & ->) Hr].
  destruct r as [[]|ex].
  - unfold Service.ret at 1. cbv beta iota.
    unfold Service.bind, Service.assign. cbn -[Service.update_status].
    rewrite Hne. cbn [negb].
    rewrite update_status_run.
    erewrite transition_allowed_ext; [rewrite Hal | reflexivity | reflexivity].
    assert (Hct : Service.can_transition_to n s = (s, Returned true))
      by (by rewrite can_transition_to_run, Hal).
    cbn -[Service.can_transition_to].
    split; [|done]. intros _. split; [reflexivity|].
    exists n. split; [reflexivity|]. split; [exact Hct|].
    split; [reflexivity|]. eauto.
  - destruct Hr as [m ->]. cbn. split; [discriminate | done].
Qed.

(** X19.  The [update_service_status] view checks nothing but that a
    status and a note were posted: for any non-empty posted status, a
    row of the transition table or not, allowed by [can_transition_to]
    or not, it sets the status to the posted text and appends one row
    "Status changed from <old> to <new>. Note: <note>". *)
Theorem update_service_status_unchecked (current_user : User.t)
    (form : gmap string string) (s : Service.t) (n note : string) :
  form !! "new_status" = Some n →
  form !! "status_note" = Some note →
  n ≠ "" → note ≠ "" →
  employee.update_service_status current_user form s =
    (Service.set_history
       (Service.history s ++
          [ServiceHistory.mk (Service.id s) (User.id current_user)
             ("Status changed from " +:+ Service.status s +:+ " to " +:+ n
                +:+ ". Note: " +:+ note)])
       (Service.set_status n s),
     Returned ([("Service status has been updated.", "success")],
               flask.redirect "employee.service_details")).
Proof.
  intros Hn Hnote Hne Hnotee.
  apply str_truthy_nonempty in Hne, Hnotee.
  unfold employee.update_service_status, Service.bind, Service.get_self.
  rewrite Hn, Hnote, Hne, Hnotee. reflexivity.
Qed.

(** ** The client views *)

(** X20.  The client's [cancel_service] view has no status guard: for
    the owner with a non-empty reason it sets the status to 'cancelled'
    and appends one row from every status, also where
    [can_client_cancel()] and [can_transition_to('cancelled')] answer
    false, as on a finished service.  For another user it ends with
    403 and for a missing or empty reason with a message; in both
    cases the service is left as it was.  It never raises. *)
Theorem client_cancel_service_unguarded (current_user : User.t)
    (form : gmap string string) (s : Service.t) (reason : string) :
  (Service.client_id s = User.id current_user →
   form !! "cancellation_reason" = Some reason → reason ≠ "" →
   client.cancel_service current_user form s =
     (Service.set_history
        (Service.history s ++
           [ServiceHistory.mk (Service.id s) (User.id current_user)
              ("Service cancelled by client. Reason: " +:+ reason)])
        (Service.set_status "cancelled" s),
      Returned ([("Service has been cancelled.", "success")],
                flask.redirect "client.services")))
  ∧ (Service.client_id s ≠ User.id current_user →
     client.cancel_service current_user form s
       = (s, Returned ([], flask.abort 403)))
  ∧ (Service.client_id s = User.id current_user →
     form !! "cancellation_reason" = None
     ∨ form !! "cancellation_reason" = Some "" →
     client.cancel_service current_user form s =
       (s, Returned ([("Please provide a reason for cancellation.", "danger")],
                     flask.redirect "client.service_details")))
  ∧ (Service.status s = "finished" →
     Service.can_client_cancel s = (s, Returned false)
     ∧ Service.can_transition_to "cancelled" s = (s, Returned false)).
Proof.
  unfold client.cancel_service, Service.bind, Service.get_self.
  split_and!.
  - intros Ho Hr Hne. apply str_truthy_nonempty in Hne.
    apply Z.eqb_eq in Ho. rewrite Ho, Hr, Hne. reflexivity.
  - intros Ho. apply Z.eqb_neq in Ho. by rewrite Ho.
  - intros Ho Hr. apply Z.eqb_eq in Ho. rewrite Ho.
    by destruct Hr as [-> | ->].
  - intros Hst. rewrite can_client_cancel_run, can_transition_to_run.
    unfold Service.transition_allowed. by rewrite Hst.
Qed.

(** X21.  Every client view checks ownership first: for a user who is
    not the service's client, [confirm_service], [cancel_service],
    [approve_service] and [confirm_pickup] return without touching the
    service and without a success message. *)
Theorem client_views_check_owner (current_user : User.t)
    (form : gmap string string) (v : client.name) (s : Service.t) :
  Service.client_id s ≠ User.id current_user →
  ∃ (flashes : list (string * string)) (response : flask.response),
    client.run current_user form v s = (s, Returned (flashes, response))
    ∧ (∀ message, (message, "success") ∉ flashes)
    ∧ (response = flask.redirect "client.services"
       ∨ response = flask.abort 403).
Proof.
  intros Ho. apply Z.eqb_neq in Ho.
  destruct v; unfold client.run, client.confirm_service,
    client.cancel_service, client.approve_service, client.confirm_pickup,
    Service.bind, Service.get_self; rewrite Ho; cbn;
    do 2 eexists; (split; [reflexivity|]); (split; [|eauto]);
    intros message; rewrite ?elem_of_cons, elem_of_nil;
    intros H; decompose [or] H; discriminate || done.
Qed.

(** X22.  The [confirm_service] view is not [confirm_date]: for the
    owner of a scheduled service it sets the status to
    'client_confirmed' whether or not an employee is assigned.  With no
    employee assigned [confirm_date] raises and [can_transition_to]
    answers false on the same service, and what the view leaves does
    not meet the employee requirement. *)
Theorem confirm_service_skips_employee_check (current_user : User.t)
    (s : Service.t) :
  Service.client_id s = User.id current_user →
  Service.status s = "scheduled" →
  let s' :=
    Service.set_history
      (Service.history s ++
         [ServiceHistory.mk (Service.id s) (User.id current_user)
            "Client confirmed the service"])
      (Service.set_status "client_confirmed" s) in
  client.confirm_service current_user s =
    (s', Returned ([("Service has been confirmed.", "success")],
                   flask.redirect "client.service_details"))
  ∧ (Service.employee_id s = None →
     (∃ e, Service.confirm_date (User.id current_user) s = (s, Raised e))
     ∧ Service.can_transition_to "client_confirmed" s = (s, Returned false)
     ∧ ¬ Service.employee_requirement s').
Proof.
  intros Ho Hst. cbv zeta. split.
  - unfold client.confirm_service, Service.bind, Service.get_self.
    apply Z.eqb_eq in Ho. rewrite Ho, Hst. reflexivity.
  - intros He. split_and!.
    + rewrite confirm_date_run, Hst, He. cbn. eauto.
    + rewrite can_transition_to_run. unfold Service.transition_allowed.
      by rewrite Hst, He.
    + intros Hreq. destruct Hreq as [e' He'].
      * apply py_in_true. vm_compute. reflexivity.
      * cbn in He'. congruence.
Qed.

(** X23.  The client views other than [cancel_service] move the status
    along an edge of the transition table or leave the service as it
    was; none of them raises. *)
Theorem client_views_follow_edges (current_user : User.t)
    (form : gmap string string) (v : client.name) (s : Service.t) :
  v ≠ client.CancelService →
  match client.run current_user form v s with
  | (s', Returned _) =>
      s' = s
      ∨ Service.status s'
          ∈ dict_get Service.STATUS_TRANSITIONS (Service.status s) []
  | (_, Raised _) => False
  end.
Proof.
  intros Hv.
  destruct v; [| done | |];
    unfold client.run, client.confirm_service, client.approve_service,
      client.confirm_pickup, Service.bind, Service.get_self;
    destruct (negb (Service.client_id s =? User.id current_user));
    cbn; try (by left);
    match goal with
    | |- context [String.eqb (Service.status s) ?c] =>
        destruct (String.eqb_spec (Service.status s) c) as [Hst | Hst]
    end; cbn; try (by left);
    right; rewrite Hst; apply py_in_true; vm_compute; reflexivity.
Qed.

(** ** The employee views and the employee requirement *)



(** ** The other forms *)

Lemma user_filter_by_first_None (column : User.t → string) (x : string)
    (rows : list User.t) :
  User.filter_by_first column x rows = None
  ↔ ∀ u, u ∈ rows → column u ≠ x.
Proof.
  unfold User.filter_by_first. rewrite head_None. split.
  - intros H u Hu Hx.
    eapply (filter_nil_not_elem_of (λ w, column w = x)); eauto.
  - intros H. apply elem_of_nil_inv. intros u Hu.
    apply list_elem_of_filter in Hu as [Hx Hu]. by apply (H u).
Qed.

Lemma user_filter_by_first_is_Some (column : User.t → string) (x : string)
    (rows : list User.t) :
  is_Some (User.filter_by_first column x rows)
  ↔ ∃ u, u ∈ rows ∧ column u = x.
Proof.
  split.
  - intros [u Hu]. unfold User.filter_by_first in Hu.
    apply head_Some_elem_of, list_elem_of_filter in Hu. exists u. tauto.
  - intros (u & Hu & Hx).
    destruct (User.filter_by_first column x rows) eqn:Hf; [eauto|].
    exfalso. by apply (proj1 (user_filter_by_first_None _ _ _) Hf u).
Qed.

(** X25.  Registration refuses exactly the names that are taken:
    [validate_username] raises its error when some user row has the
    submitted username and returns otherwise, and [validate_email]
    does the same for the email address. *)
Theorem registration_uniqueness (rows : list User.t) (name mail : string) :
  (RegistrationForm.validate_username rows name
     = Raised (ValidationError "Please use a different username.")
   ↔ ∃ u, u ∈ rows ∧ User.username u = name)
  ∧ (RegistrationForm.validate_username rows name = Returned tt
     ↔ ∀ u, u ∈ rows → User.username u ≠ name)
  ∧ (RegistrationForm.validate_email rows mail
       = Raised (ValidationError "Please use a different email address.")
     ↔ ∃ u, u ∈ rows ∧ User.email u = mail)
  ∧ (RegistrationForm.validate_email rows mail = Returned tt
     ↔ ∀ u, u ∈ rows → User.email u ≠ mail).
Proof.
  unfold RegistrationForm.validate_username, RegistrationForm.validate_email.
  cbv zeta.
  rewrite <- !user_filter_by_first_is_Some, <- !user_filter_by_first_None.
  destruct (User.filter_by_first User.username name rows),
    (User.filter_by_first User.email mail rows);
    split_and!; split; try done; eauto; by intros [? ?].
Qed.

(** X26.  The profile and user-management forms let a user keep the
    value the form was opened with, whatever the table holds, and treat
    a changed value as registration does: it is refused exactly when
    some user row has it.  Opened without originals, the
    user-management form validates exactly as the registration form. *)
Theorem edit_forms_keep_own_value (rows : list User.t)
    (original data : string) :
  (data = original →
   UserProfileForm.validate_email rows original data = Returned tt
   ∧ UserManagementForm.validate_username rows (Some original) data
       = Returned tt
   ∧ UserManagementForm.validate_email rows (Some original) data
       = Returned tt)
  ∧ (data ≠ original →
     UserProfileForm.validate_email rows original data
       = RegistrationForm.validate_email rows data
     ∧ UserManagementForm.validate_username rows (Some original) data
         = RegistrationForm.validate_username rows data
     ∧ UserManagementForm.validate_email rows (Some original) data
         = RegistrationForm.validate_email rows data)
  ∧ UserManagementForm.validate_username rows None data
      = RegistrationForm.validate_username rows data
  ∧ UserManagementForm.validate_email rows None data
      = RegistrationForm.validate_email rows data.
Proof.
  unfold UserProfileForm.validate_email,
    UserManagementForm.validate_username, UserManagementForm.validate_email,
    RegistrationForm.validate_username, RegistrationForm.validate_email.
  split_and!; try reflexivity.
  - intros ->. rewrite String.eqb_refl, !bool_decide_eq_true_2 by done.
    done.
  - intros Hne.
    assert (He : String.eqb data original = false)
      by (by apply String.eqb_neq).
    rewrite He, !bool_decide_eq_false_2 by congruence. done.
Qed.

Lemma employee_year_accepted (now_year y : Z) :
  validators.accepted (EmployeeVehicleForm.year now_year) (Some y) = true
  ↔ 1900 ≤ y ≤ now_year.
Proof.
  unfold validators.accepted. rewrite bool_decide_eq_true. cbn.
  unfold validators.DataRequired, validators.NumberRange. cbn.
  unfold truthy, int_truthy.
  destruct (Z.eqb_spec y 0) as [-> | Hy0]; cbn; [split; [done | lia]|].
  destruct (Z.leb_spec 1900 y), (Z.leb_spec y now_year); cbn;
    split; (done || lia).
Qed.

(** X27.  The employee's vehicle form accepts a year exactly in
    [1900, now_year]: next year's model, which the admin and client
    forms accept, is refused here.  Its VIN and plate validators are
    those of the admin form. *)
Theorem employee_vehicle_form_year (now_year : Z) (show_year : Z → string)
    (rows : list Vehicle.t) (vehicle : option Vehicle.t)
    (y : Z) (vin_data plate_data : string) :
  (validators.accepted (EmployeeVehicleForm.year now_year) (Some y) = true
   ↔ 1900 ≤ y ≤ now_year)
  ∧ (1899 ≤ now_year →
     validators.accepted (VehicleForm.year now_year show_year)
       (Some (now_year + 1)) = true
     ∧ validators.accepted (EmployeeVehicleForm.year now_year)
         (Some (now_year + 1)) = false)
  ∧ EmployeeVehicleForm.validate_vin rows vehicle vin_data
      = VehicleForm.validate_vin rows vehicle vin_data
  ∧ EmployeeVehicleForm.validate_license_plate rows vehicle plate_data
      = VehicleForm.validate_license_plate rows vehicle plate_data.
Proof.
  split_and!; try reflexivity.
  - apply employee_year_accepted.
  - intros Hy. split.
    + apply year_accepted. lia.
    + apply not_true_iff_false. rewrite employee_year_accepted. lia.
Qed.

Lemma vehicle_query_get_Some (pk : Z) (rows : list Vehicle.t)
    (v : Vehicle.t) :
  Vehicle.query_get pk rows = Some v → v ∈ rows ∧ Vehicle.id v = pk.
Proof.
  unfold Vehicle.query_get. intros H.
  apply head_Some_elem_of, list_elem_of_filter in H. tauto.
Qed.

(** X28.  The service-management form accepts a client and a vehicle
    only together: [validate_client_id] returns exactly for the
    non-zero key of a user row whose role is 'client', and
    [validate_vehicle_id] exactly for the non-zero key of a vehicle row
    whose owner is the selected client.  So when both return, the
    vehicle is in the table, has the submitted key and belongs to the
    selected user, who is a client; the entry 0 of the select lists is
    always refused. *)
Theorem service_management_selection (users : gmap Z User.t)
    (vehicles : list Vehicle.t) (client_data vehicle_data : option Z) :
  (ServiceManagementForm.validate_client_id users client_data = Returned tt
   ↔ ∃ pk c, client_data = Some pk ∧ pk ≠ 0 ∧ users !! pk = Some c
             ∧ User.role c = "client")
  ∧ (ServiceManagementForm.validate_vehicle_id vehicles client_data
       vehicle_data = Returned tt
     ↔ ∃ pk v, vehicle_data = Some pk ∧ pk ≠ 0
               ∧ Vehicle.query_get pk vehicles = Some v
               ∧ client_data = Some (Vehicle.owner_id v))
  ∧ (ServiceManagementForm.validate_client_id users client_data = Returned tt
     → ServiceManagementForm.validate_vehicle_id vehicles client_data
         vehicle_data = Returned tt
     → ∃ c v, v ∈ vehicles ∧ Some (Vehicle.id v) = vehicle_data
              ∧ users !! Vehicle.owner_id v = Some c
              ∧ User.role c = "client")
  ∧ ServiceManagementForm.validate_client_id users (Some 0)
      = Raised (ValidationError "Please select a client.")
  ∧ ServiceManagementForm.validate_vehicle_id vehicles client_data (Some 0)
      = Raised (ValidationError "Please select a vehicle.").
Proof.
  assert (Hc : ServiceManagementForm.validate_client_id users client_data
                 = Returned tt
               ↔ ∃ pk c, client_data = Some pk ∧ pk ≠ 0
                         ∧ users !! pk = Some c ∧ User.role c = "client").
  { unfold ServiceManagementForm.validate_client_id.
    destruct client_data as [pk|]; [|split; [done | by intros (? & ? & ? & _)]].
    unfold truthy, int_truthy.
    destruct (Z.eqb_spec pk 0) as [-> | Hpk]; cbn.
    { split; [done | intros (? & ? & [= <-] & ? & _); done]. }
    destruct (users !! pk) as [c|] eqn:Hu.
    - destruct (String.eqb_spec (User.role c) "client") as [Hr | Hr]; cbn.
      + split; [intros _; eauto 10 | done].
      + split; [done | intros (? & ? & [= <-] & _ & Hu' & Hr')].
        congruence.
    - split; [done | intros (? & ? & [= <-] & _ & Hu' & _)]. congruence. }
  assert (Hv : ServiceManagementForm.validate_vehicle_id vehicles client_data
                 vehicle_data = Returned tt
               ↔ ∃ pk v, vehicle_data = Some pk ∧ pk ≠ 0
                         ∧ Vehicle.query_get pk vehicles = Some v
                         ∧ client_data = Some (Vehicle.owner_id v)).
  { unfold ServiceManagementForm.validate_vehicle_id.
    destruct vehicle_data as [pk|];
      [|split; [done | by intros (? & ? & ? & _)]].
    unfold truthy, int_truthy.
    destruct (Z.eqb_spec pk 0) as [-> | Hpk]; cbn.
    { split; [done | intros (? & ? & [= <-] & ? & _); done]. }
    destruct (Vehicle.query_get pk vehicles) as [v|] eqn:Hq.
    - destruct (bool_decide_reflect
                  (Some (Vehicle.owner_id v) = client_data)) as [Ho | Ho];
        cbn.
      + split; [intros _; eauto 10 | done].
      + split; [done | intros (? & ? & [= <-] & _ & Hq' & Ho')].
        congruence.
    - split; [done | intros (? & ? & [= <-] & _ & Hq' & _)]. congruence. }
  split_and!; [exact Hc | exact Hv | | reflexivity | reflexivity].
  intros H1 H2.
  apply Hc in H1 as (pk & c & Hcd & _ & Hu & Hr).
  apply Hv in H2 as (pk' & v & Hvd & _ & Hq & Hown).
  apply vehicle_query_get_Some in Hq as [Hin Hid].
  exists c, v. split_and!; [done | congruence | | done].
  rewrite Hcd in Hown. injection Hown as ->. exact Hu.
Qed.

(** X29.  The "not in the past" validator of the service request form
    rejects nothing: it is a lambda that returns the comparison and
    never raises, so the [preferred_date] field accepts every date the
    field could parse, past dates included, and only a missing date is
    refused (by [DataRequired]). *)
Theorem preferred_date_accepts_past (now d : datetime) :
  wtforms.accepted (ServiceRequestForm.preferred_date now) (Some d) = true
  ∧ wtforms.accepted (ServiceRequestForm.preferred_date now) None = false
  ∧ (datetime_ge d now = false →
     ServiceRequestForm.not_in_the_past now (Some d)
       = Returned (Some false)).
Proof.
  split_and!; try reflexivity.
  unfold ServiceRequestForm.not_in_the_past. cbn. by intros ->.
Qed.

(** ** The further theorems with hypotheses, at sample rows *)

(** [terminal_states_absorbing]: a finished service refuses to go back
    to 'pending'. *)
Lemma terminal_states_absorbing_witness :
  ∃ e : exn,
    Service.run_op sample_users (λ _ _, "2025-03-01")
      (Service.UpdateStatus "pending" 5 None)
      (Service.sample "finished" (Some 5) [])
    = (Service.sample "finished" (Some 5) [], Raised e).
Proof.
  apply (terminal_states_absorbing sample_users (λ _ _, "2025-03-01")
           (Service.UpdateStatus "pending" 5 None)
           (Service.sample "finished" (Some 5) [])).
  - left. reflexivity.
  - intros e u. discriminate.
  - intros d u. discriminate.
Defined.

(** [status_stays_known]: a client's date change on a scheduled
    service. *)
Lemma status_stays_known_witness :
  Service.known_status "scheduled"
  ∧ Service.known_status
      (Service.status
         (Service.run_op sample_users (λ _ _, "2025-03-01")
            (Service.RequestDateChange (mk_datetime 2025 3 1 9 0 0 0) 2 true)
            (Service.sample "scheduled" (Some 5) [])).1).
Proof.
  assert (H : Service.known_status "scheduled") by (vm_compute; eauto).
  split; [exact H|].
  exact (status_stays_known sample_users (λ _ _, "2025-03-01") _
           (Service.sample "scheduled" (Some 5) []) H).
Defined.

(** [update_status_along_edges]: an accepted service is taken through
    an uneventful repair to 'finished' in thirteen calls. *)
Lemma update_status_along_edges_witness :
  ∃ s' : Service.t,
    Service.update_status_each uneventful_repair 5
      (Service.sample "accepted" (Some 5) []) = (s', Returned tt)
    ∧ Service.status s' = "finished"
    ∧ length (Service.history s') = 13%nat
    ∧ Service.employee_id s' = Some 5.
Proof.
  apply (update_status_along_edges uneventful_repair 5
           (Service.sample "accepted" (Some 5) [])).
  - exists 5. split; [reflexivity | discriminate].
  - unfold uneventful_repair. cbn [Service.follows_edges Service.sample
      Service.status].
    repeat split; apply py_in_true; vm_compute; reflexivity.
Defined.

(** [update_service_status_unchecked]: a finished service is given a
    status the table does not know. *)
Lemma update_service_status_unchecked_witness :
  ¬ Service.known_status "reopened"
  ∧ employee.update_service_status anna sample_status_form
      (Service.sample "finished" (Some 5) []) =
      (Service.sample "reopened" (Some 5)
         [ServiceHistory.mk 1 5
            "Status changed from finished to reopened. Note: customer called"],
       Returned ([("Service status has been updated.", "success")],
                 flask.redirect "employee.service_details")).
Proof.
  split.
  - intros [l Hl]. vm_compute in Hl. discriminate.
  - apply (update_service_status_unchecked anna sample_status_form
             (Service.sample "finished" (Some 5) []) "reopened"
             "customer called");
      [reflexivity | reflexivity | discriminate | discriminate].
Defined.

(** [client_views_check_owner]: the employee [anna] is not the client
    of the sample service. *)
Lemma client_views_check_owner_witness :
  ∃ (flashes : list (string * string)) (response : flask.response),
    client.run anna ∅ client.CancelService
      (Service.sample "pending" None [])
    = (Service.sample "pending" None [], Returned (flashes, response))
    ∧ (∀ message, (message, "success") ∉ flashes)
    ∧ (response = flask.redirect "client.services"
       ∨ response = flask.abort 403).
Proof.
  apply (client_views_check_owner anna ∅ client.CancelService
           (Service.sample "pending" None [])).
  discriminate.
Defined.

(** [confirm_service_skips_employee_check]: the client [jan] confirms
    a scheduled service nobody is assigned to. *)
Lemma confirm_service_skips_employee_check_witness :
  client.confirm_service jan (Service.sample "scheduled" None []) =
    (Service.sample "client_confirmed" None
       [ServiceHistory.mk 1 2 "Client confirmed the service"],
     Returned ([("Service has been confirmed.", "success")],
               flask.redirect "client.service_details")).
Proof.
  exact (proj1 (confirm_service_skips_employee_check jan
                  (Service.sample "scheduled" None []) eq_refl eq_refl)).
Defined.

(** [client_views_follow_edges]: the client [jan] confirms the pickup. *)
Lemma client_views_follow_edges_witness :
  match client.run jan ∅ client.ConfirmPickup
          (Service.sample "ready_for_pickup" (Some 5) [])
  with
  | (s', Returned _) =>
      s' = Service.sample "ready_for_pickup" (Some 5) []
      ∨ Service.status s'
          ∈ dict_get Service.STATUS_TRANSITIONS "ready_for_pickup" []
  | (_, Raised _) => False
  end.
Proof.
  apply (client_views_follow_edges jan ∅ client.ConfirmPickup
           (Service.sample "ready_for_pickup" (Some 5) [])).
  discriminate.
Defined.

